(** * fluid-sdk: Permit2 authorization and CCTP transfer orchestration

    A shallow embedding of [src/permit2.ts] and of the two revisions of
    [src/cctpTransfer.ts] (the polling revision and the delegated-mode
    revision), with the properties of the design document stated and
    settled against it; and of [src/config.ts], of the command-line runner
    [src/runCctp.ts] in its first revision and of the signature helper
    [src/generatePermit2.ts], with properties of the code that the design
    document does not state.

    Conventions of the embedding:
    - a JavaScript [bigint] is a [Z]; a JavaScript [number] that holds a
      chain id, a nonce count or a millisecond clock reading is a [Z];
    - a JavaScript [number] that is computed with (the amount parsed by
      [parseFloat], the backoff delay) is an IEEE-754 binary64 value, a
      [spec_float] with precision 53 and maximal exponent 1024;
    - strings are [string]; [toLowerCase] is the ASCII case mapping (the
      addresses the code lower-cases are hexadecimal);
    - a thrown value is an [Error] object, [JsError]; a call that may throw
      returns a [Result]; the module [AnyThrow] embeds the delegated-mode
      transfer again with thrown values of any kind, [null] and [undefined]
      included;
    - calls into the chain SDKs are answered by a [World] record and logged
      in a trace of [ChainCall]s. *)

From Stdlib Require Import ZArith String Ascii List Bool Lia.
From Stdlib Require Import SpecFloat.
From stdpp Require Import base decidable countable strings list gmap.

Import ListNotations.
Local Open Scope string_scope.
Local Open Scope Z_scope.

(** ** Strings *)

Module JsString.

(** [c.toLowerCase()] on one ASCII character. *)
Definition lowerAscii (c : ascii) : ascii :=
  let n := N_of_ascii c in
  if ((65 <=? n) && (n <=? 90))%N then ascii_of_N (n + 32) else c.

(** [s.toLowerCase()]. *)
Fixpoint toLowerCase (s : string) : string :=
  match s with
  | EmptyString => EmptyString
  | String c r => String (lowerAscii c) (toLowerCase r)
  end.

(** [s.startsWith(p)]. *)
Fixpoint startsWith (p s : string) : bool :=
  match p, s with
  | EmptyString, _ => true
  | String a p', String b s' => if Ascii.eqb a b then startsWith p' s' else false
  | String _ _, EmptyString => false
  end.

(** [s.includes(p)]. *)
Fixpoint includes (p s : string) : bool :=
  startsWith p s ||
  match s with
  | EmptyString => false
  | String _ s' => includes p s'
  end.

(** ToBoolean on a string: only the empty string is falsy. *)
Definition truthy (s : string) : bool :=
  match s with EmptyString => false | String _ _ => true end.

(** ToBoolean on an optional string ([undefined] is falsy). *)
Definition truthyOpt (o : option string) : bool :=
  match o with Some s => truthy s | None => false end.

(** [a || b] on strings where [a] may be [undefined]. *)
Definition orElse (a : option string) (b : string) : string :=
  match a with
  | Some s => if truthy s then s else b
  | None => b
  end.

End JsString.

(** ** Thrown values *)

(** The class of a thrown [Error]; [e.name] is the class name.  Every value
    the code or its libraries throw is an [Error] instance of a named
    class; the classes that the embedding distinguishes are listed. *)
Inductive ErrorClass := ErrorC | RangeErrorC | TypeErrorC.

Record JsError := mkJsError { err_class : ErrorClass; err_message : string }.

Definition Result (A : Type) : Type := (JsError + A)%type.

(** [new Error(msg)]. *)
Definition newError (msg : string) : JsError := mkJsError ErrorC msg.

Definition err_name (e : JsError) : string :=
  match err_class e with
  | ErrorC => "Error"
  | RangeErrorC => "RangeError"
  | TypeErrorC => "TypeError"
  end.

(** [String(error)], that is [Error.prototype.toString]. *)
Definition String_of_error (e : JsError) : string :=
  match err_name e, err_message e with
  | EmptyString, m => m
  | n, EmptyString => n
  | n, m => n ++ ": " ++ m
  end.

(** [error.message || String(error)]. *)
Definition messageOrString (e : JsError) : string :=
  if JsString.truthy (err_message e) then err_message e else String_of_error e.

(** ** JavaScript numbers *)

Module JsNumber.

Definition prec : Z := 53.
Definition emax : Z := 1024.

(** A [number]: an IEEE-754 binary64 value. *)
Definition number : Type := spec_float.

Definition NaN : number := S754_nan.

(** The [number] nearest to the integer [z] (ties to even). *)
Definition ofZ (z : Z) : number := binary_normalize prec emax z 0 false.

(** The [number] nearest to the quotient [m / d], negated when [neg]. *)
Definition ofRatio (neg : bool) (m d : positive) : number :=
  let '(q, e, l) := SFdiv_core_binary prec emax (Zpos m) 0 (Zpos d) 0 in
  binary_round_aux prec emax neg q e l.

(** The [number] nearest to [m * 10^e], as a decimal literal denotes it. *)
Definition ofDecimal (neg : bool) (m : Z) (e : Z) : number :=
  match m with
  | Zpos p =>
      match e with
      | Zneg k => ofRatio neg p (Pos.pow 10 k)
      | _ =>
          let v := Zpos p * 10 ^ e in
          binary_normalize prec emax (if neg then - v else v) 0 neg
      end
  | _ => S754_zero neg
  end.

(** [x * y]. *)
Definition mul (x y : number) : number := SFmul prec emax x y.

(** [Math.min(x, y)]. *)
Definition Math_min (x y : number) : number :=
  match SFcompare x y with
  | Some Lt => x
  | Some Gt => y
  | Some Eq =>
      match x, y with
      | S754_zero _, S754_zero sy => if sy then y else x
      | _, _ => x
      end
  | None => NaN
  end.

(** [Math.floor(x)]. *)
Definition Math_floor (x : number) : number :=
  match x with
  | S754_finite s m e =>
      match e with
      | Zneg k =>
          let q := Z.shiftr (if s then Zneg m else Zpos m) (Zpos k) in
          binary_normalize prec emax q 0 s
      | _ => x
      end
  | _ => x
  end.

(** [BigInt(x)]: the integer [x] holds, a [RangeError] when it holds none. *)
Definition BigInt (x : number) : Result Z :=
  let notInteger (shown : string) :=
    inl (mkJsError RangeErrorC
           ("The number " ++ shown ++
            " cannot be converted to a BigInt because it is not an integer")) in
  match x with
  | S754_zero _ => inr 0
  | S754_finite s m e =>
      match e with
      | Zneg k =>
          if Z.land (Zpos m) (Z.ones (Zpos k)) =? 0
          then inr (Z.shiftr (if s then Zneg m else Zpos m) (Zpos k))
          else notInteger "(a fraction)"
      | _ => inr (Z.shiftl (if s then Zneg m else Zpos m) e)
      end
  | S754_infinity s => notInteger (if s then "-Infinity" else "Infinity")
  | S754_nan => notInteger "NaN"
  end.

(** The mathematical integer part of a finite positive delay, as a timer
    uses it. *)
Definition truncToZ (x : number) : Z :=
  match x with
  | S754_finite s m e =>
      let v := match e with
               | Zneg k => Z.shiftr (Zpos m) (Zpos k)
               | _ => Z.shiftl (Zpos m) e
               end in
      if s then - v else v
  | _ => 0
  end.


(** *** [parseFloat] *)

Definition isWhiteSpace (c : ascii) : bool :=
  let n := N_of_ascii c in
  ((9 <=? n) && (n <=? 13) || (n =? 32))%N.

Definition digitOf (c : ascii) : option Z :=
  let n := N_of_ascii c in
  if ((48 <=? n) && (n <=? 57))%N then Some (Z.of_N (n - 48)) else None.

Fixpoint skipWhiteSpace (s : string) : string :=
  match s with
  | String c r => if isWhiteSpace c then skipWhiteSpace r else s
  | EmptyString => s
  end.

(** The longest run of decimal digits at the head of [s]: the value of
    [acc] followed by the digits, how many digits were read, the rest. *)
Fixpoint takeDigits (s : string) (acc : Z) (n : Z) : Z * Z * string :=
  match s with
  | String c r =>
      match digitOf c with
      | Some d => takeDigits r (10 * acc + d) (n + 1)
      | None => (acc, n, s)
      end
  | EmptyString => (acc, n, s)
  end.

(** An optional sign: whether it is [-], and the rest. *)
Definition takeSign (s : string) : bool * string :=
  match s with
  | String "-" r => (true, r)
  | String "+" r => (false, r)
  | _ => (false, s)
  end.

(** The exponent part [e[+-]digits] at the head of [s], 0 when there is
    none or it is incomplete. *)
Definition takeExponent (s : string) : Z :=
  match s with
  | String c r =>
      if (Ascii.eqb c "e" || Ascii.eqb c "E")%bool then
        let '(neg, r') := takeSign r in
        let '(x, n, _) := takeDigits r' 0 0 in
        if n =? 0 then 0 else if neg then - x else x
      else 0
  | EmptyString => 0
  end.

(** [parseFloat(s)]: the longest prefix of the trimmed string that is a
    decimal literal, [NaN] when there is none. *)
Definition parseFloat (s : string) : number :=
  let '(neg, s1) := takeSign (skipWhiteSpace s) in
  if JsString.startsWith "Infinity" s1 then S754_infinity neg else
  let '(ip, ni, s2) := takeDigits s1 0 0 in
  let '(m, nf, s3) :=
    match s2 with
    | String "." r => let '(m, nf, s3) := takeDigits r ip 0 in (m, nf, s3)
    | _ => (ip, 0, s2)
    end in
  if ni + nf =? 0 then NaN
  else ofDecimal neg m (takeExponent s3 - nf).

End JsNumber.

(** ** Amounts *)

(** [BigInt(Math.floor(parseFloat(amount) * 1_000_000))]: the amount in the
    token's smallest unit, six decimals. *)
Definition toSmallestUnits (amount : string) : Result Z :=
  JsNumber.BigInt
    (JsNumber.Math_floor
       (JsNumber.mul (JsNumber.parseFloat amount) (JsNumber.ofZ 1000000))).

(** ** Permit2 typed data ([src/permit2.ts]: lines 1-247 of
    [src/src/permit2.ts]) *)

Record Permit2Domain := mkDomain {
  name : string;
  version : string;
  chainId : Z;
  verifyingContract : string
}.

Record Permit2Permit := mkPermit {
  owner : string;
  spender : string;
  token : string;
  value : Z;
  nonce : Z;
  deadline : Z
}.

(** The value that is hashed: [{details: {token, amount, expiration, nonce},
    spender, sigDeadline}].  The source renders the integers with
    [toString()] and the encoder reads them back; the embedding keeps them
    as integers. *)
Record PermitDetails := mkDetails {
  d_token : string;
  d_amount : Z;
  d_expiration : Z;
  d_nonce : Z
}.

Record PermitSingle := mkSingle {
  details : PermitDetails;
  s_spender : string;
  sigDeadline : Z
}.

Definition PERMIT2_ADDRESS : string := "0x000000000022D473030F116dDEE9F6B43aC78BA3".
Definition BASE_SEPOLIA_CHAIN_ID : Z := 84532.
Definition BASE_SEPOLIA_USDC : string := "0x036CbD53842c5426634e7929541eC2318f3dCF7e".

Definition getPermit2Address : string := PERMIT2_ADDRESS.

(** [getPermit2Domain(chainId)], with the default [permit2Address]. *)
Definition getPermit2Domain (chainId : Z) : Permit2Domain :=
  {| name := "Permit2";
     version := "1";
     chainId := chainId;
     verifyingContract := getPermit2Address |}.

(** [getPermit2Types()]: each struct with its fields, name and type. *)
Definition getPermit2Types : list (string * list (string * string)) :=
  [ ("PermitSingle",
      [ ("details", "PermitDetails"); ("spender", "address"); ("sigDeadline", "uint256") ]);
    ("PermitDetails",
      [ ("token", "address"); ("amount", "uint160");
        ("expiration", "uint48"); ("nonce", "uint48") ]) ].

(** *** The signing library

    [ethers] supplies the typed-data hash, the signing key and the address
    recovery.  They are an interface of the embedding; [Symbolic] below is
    an instance of it. *)
Class Eip712 := {
  digest : Type;
  signingKey : Type;
  (** [TypedDataEncoder.hash(domain, types, value)]; it throws on a value
      that does not fit the types. *)
  TypedDataEncoder_hash :
    Permit2Domain -> list (string * list (string * string)) -> PermitSingle -> Result digest;
  (** [signer.signingKey.sign(digest).serialized]. *)
  signingKey_sign : signingKey -> digest -> string;
  (** [signer.address]. *)
  wallet_address : signingKey -> string;
  (** [ethers.recoverAddress(digest, signature)]; it throws on a malformed
      signature. *)
  recoverAddress : digest -> string -> Result string
}.

Section Permit2.
Context {E : Eip712}.

Definition generatePermit2Signature
    (signer : signingKey) (permit : Permit2Permit) (chainId : Z) : Result string :=
  let domain := getPermit2Domain chainId in
  let types := getPermit2Types in
  let maxUint160 := 0xffffffffffffffffffffffffffffffffffffffff in
  let amount := if value permit >? maxUint160 then maxUint160 else value permit in
  let maxUint48 := 0xffffffffffff in
  let expiration := if deadline permit >? maxUint48 then maxUint48 else deadline permit in
  let nonce := if nonce permit >? maxUint48 then maxUint48 else nonce permit in
  let value :=
    {| details := {| d_token := token permit;
                     d_amount := amount;
                     d_expiration := expiration;
                     d_nonce := nonce |};
       s_spender := spender permit;
       sigDeadline := deadline permit |} in
  match TypedDataEncoder_hash domain types value with
  | inl e => inl e
  | inr digest => inr (signingKey_sign signer digest)
  end.

Definition verifyPermit2Signature
    (permit : Permit2Permit) (signature : string) (chainId : Z)
    (expectedOwner : string) : bool :=
  let domain := getPermit2Domain chainId in
  let types := getPermit2Types in
  let maxUint160 := 0xffffffffffffffffffffffffffffffffffffffff in
  let amount := if value permit >? maxUint160 then maxUint160 else value permit in
  let maxUint48 := 0xffffffffffff in
  let expiration := if deadline permit >? maxUint48 then maxUint48 else deadline permit in
  let nonce := if nonce permit >? maxUint48 then maxUint48 else nonce permit in
  let value :=
    {| details := {| d_token := token permit;
                     d_amount := amount;
                     d_expiration := expiration;
                     d_nonce := nonce |};
       s_spender := spender permit;
       sigDeadline := deadline permit |} in
  match TypedDataEncoder_hash domain types value with
  | inl _ => false
  | inr digest =>
      match recoverAddress digest signature with
      | inl _ => false
      | inr recoveredAddress =>
          let matches :=
            String.eqb (JsString.toLowerCase recoveredAddress)
                       (JsString.toLowerCase expectedOwner) in
          matches
      end
  end.

(** [createPermit(owner, spender, token, value, nonce, deadlineOffsetSeconds)]
    at the clock reading [now] (milliseconds, [Date.now()]). *)
Definition createPermit (now : Z) (owner spender token : string)
    (value nonce : Z) (deadlineOffsetSeconds : Z) : Permit2Permit :=
  let deadline := now / 1000 + deadlineOffsetSeconds in
  {| owner := owner;
     spender := spender;
     token := token;
     value := value;
     nonce := nonce;
     deadline := deadline |}.

(** [verifyUserAuthorization(fromAddress, amount, signature, permitData,
    chainId)] of [src/cctpTransfer.ts] (lines 458-535 of
    [src/src/permit2.ts]), at the clock reading [now].  A chain id that is
    [undefined] is [None]; [!chainId] also holds of 0. *)
Definition verifyUserAuthorization (now : Z) (fromAddress : string) (amount : Z)
    (signature : string) (permitData : option Permit2Permit)
    (chainId : option Z) : bool :=
  if String.eqb signature "dummy" then true else
  match chainId with
  | None => false
  | Some 0 => false
  | Some chainId =>
      match permitData with
      | Some actualPermitData =>
          if negb (String.eqb (JsString.toLowerCase (owner actualPermitData))
                              (JsString.toLowerCase fromAddress))
          then false
          else if negb (value actualPermitData =? amount) then false
          else
            let currentTime := now / 1000 in
            if deadline actualPermitData <? currentTime then false
            else verifyPermit2Signature actualPermitData signature chainId fromAddress
      | None =>
          let actualPermitData :=
            createPermit now fromAddress getPermit2Address BASE_SEPOLIA_USDC amount 0 3600 in
          verifyPermit2Signature actualPermitData signature chainId fromAddress
      end
  end.

End Permit2.

(** *** A symbolic instance of the signing library

    A digest is the hashed data itself, with addresses in lower case as the
    encoder normalises them; a key is the address it controls; a signature
    is the binary numeral of the code of the pair (key, digest). *)
Module Symbolic.

Definition hashed : Type :=
  (string * string * Z * string) * (string * Z * Z * Z) * string * Z.

Definition hash (d : Permit2Domain) (_ : list (string * list (string * string)))
    (v : PermitSingle) : Result hashed :=
  inr ((name d, version d, chainId d, JsString.toLowerCase (verifyingContract d)),
       (JsString.toLowerCase (d_token (details v)), d_amount (details v),
        d_expiration (details v), d_nonce (details v)),
       JsString.toLowerCase (s_spender v), sigDeadline v).

Fixpoint numeral (p : positive) : string :=
  match p with
  | xH => EmptyString
  | xO q => String "0" (numeral q)
  | xI q => String "1" (numeral q)
  end.

Fixpoint readNumeral (s : string) : option positive :=
  match s with
  | EmptyString => Some xH
  | String c r =>
      match readNumeral r with
      | Some q =>
          if Ascii.eqb c "0" then Some (xO q)
          else if Ascii.eqb c "1" then Some (xI q)
          else None
      | None => None
      end
  end.

Definition sign (k : string) (d : hashed) : string := numeral (encode (k, d)).

Definition recover (d : hashed) (s : string) : Result string :=
  match readNumeral s with
  | Some p =>
      match decode p : option (string * hashed) with
      | Some (k, d') =>
          if decide (d' = d) then inr k
          else inl (newError "signature does not match the digest")
      | None => inl (newError "invalid signature")
      end
  | None => inl (newError "invalid signature")
  end.

Definition eip712 : Eip712 := {|
  digest := hashed;
  signingKey := string;
  TypedDataEncoder_hash := hash;
  signingKey_sign := sign;
  wallet_address := fun k => k;
  recoverAddress := recover
|}.

End Symbolic.

(** ** The signing library's ideal behaviour

    The properties of typed-data hashing and of signature recovery that the
    authorization arguments rest on: a signature recovers to the address of
    the key that made it; one signature recovers to one address under one
    digest only; the hash separates chain ids and hashed values, addresses
    being compared without regard to letter case. *)

Definition sameTypedData (v1 v2 : PermitSingle) : Prop :=
  JsString.toLowerCase (d_token (details v1)) = JsString.toLowerCase (d_token (details v2))
  /\ d_amount (details v1) = d_amount (details v2)
  /\ d_expiration (details v1) = d_expiration (details v2)
  /\ d_nonce (details v1) = d_nonce (details v2)
  /\ JsString.toLowerCase (s_spender v1) = JsString.toLowerCase (s_spender v2)
  /\ sigDeadline v1 = sigDeadline v2.

Class Eip712Laws (E : Eip712) : Prop := {
  recover_sign : forall (k : signingKey) (d : digest),
    recoverAddress d (signingKey_sign k d) = inr (wallet_address k);
  recover_binds_digest : forall (d1 d2 : digest) (s a1 a2 : string),
    recoverAddress d1 s = inr a1 ->
    recoverAddress d2 s = inr a2 ->
    JsString.toLowerCase a1 = JsString.toLowerCase a2 ->
    d1 = d2;
  hash_separates : forall (c1 c2 : Z) (v1 v2 : PermitSingle) (h : digest),
    TypedDataEncoder_hash (getPermit2Domain c1) getPermit2Types v1 = inr h ->
    TypedDataEncoder_hash (getPermit2Domain c2) getPermit2Types v2 = inr h ->
    c1 = c2 /\ sameTypedData v1 v2
}.

(** The largest [uint160] and the largest [uint48]. *)
Definition maxUint160 : Z := 2 ^ 160 - 1.
Definition maxUint48 : Z := 2 ^ 48 - 1.

(** The value that [generatePermit2Signature] and [verifyPermit2Signature]
    hash for a permit, written with [Z.min]. *)
Definition typedValue (permit : Permit2Permit) : PermitSingle :=
  {| details := {| d_token := token permit;
                   d_amount := Z.min (value permit) maxUint160;
                   d_expiration := Z.min (deadline permit) maxUint48;
                   d_nonce := Z.min (nonce permit) maxUint48 |};
     s_spender := spender permit;
     sigDeadline := deadline permit |}.

(** ** The transfer ([src/cctpTransfer.ts] in its delegated-mode revision:
    lines 416-718 of [src/src/permit2.ts])

    Console output is not part of the embedding. *)

Record TransferResult := mkResult {
  success : bool;
  sourceTx : option string;
  attestationId : option string;
  destinationTx : option string;
  error : option string
}.

(** What [initiateTransfer] and [completeTransfer] return: one id or an
    array of ids. *)
Inductive TxIds := TxOne (id : string) | TxMany (ids : list string).

(** [Array.isArray(txids) ? txids[0] : txids]. *)
Definition firstTx (txids : TxIds) : option string :=
  match txids with
  | TxOne id => Some id
  | TxMany ids => head ids
  end.

(** The calls to the chain SDK that a run makes, in order. *)
Inductive ChainCall :=
| CallCircleTransfer (amount : Z) (sender receiver : string)
| CallQuoteTransfer
| CallGetTransactionCount
| CallInitiateTransfer
| CallFetchAttestation (timeout : Z)
| CallCompleteTransfer.


(** *** Computations that log chain calls and may throw *)

Definition M (A : Type) : Type := list ChainCall -> Result A * list ChainCall.

Definition ret {A} (a : A) : M A := fun tr => (inr a, tr).

Definition throw {A} (e : JsError) : M A := fun tr => (inl e, tr).

Definition bind {A B} (m : M A) (f : A -> M B) : M B :=
  fun tr =>
    match m tr with
    | (inr a, tr') => f a tr'
    | (inl e, tr') => (inl e, tr')
    end.

(** A call that is not logged. *)
Definition lift {A} (r : Result A) : M A := fun tr => (r, tr).

(** A logged call with the answer the world gives. *)
Definition call {A} (c : ChainCall) (r : Result A) : M A := fun tr => (r, (tr ++ [c])%list).

(** [try { m } catch (error) { handler }]. *)
Definition tryCatch {A} (m : M A) (handler : JsError -> M A) : M A :=
  fun tr =>
    match m tr with
    | (inr a, tr') => (inr a, tr')
    | (inl e, tr') => handler e tr'
    end.

Notation "x <- m ;; k" := (bind m (fun x => k))
  (at level 100, m at next level, right associativity).

Inductive NetworkType := Mainnet | Testnet.

Module DelegatedRevision.

Record CctpTransferRequest := mkRequest {
  amount : string;
  destAddress : option string;
  fromAddress : option string;
  signature : option string;
  permitData : option Permit2Permit
}.

(** The configuration and the collaborators' answers during one run. *)
Record World := mkWorld {
  config_networkType : NetworkType;
  (** [wormhole(network, [evm, aptos], ...)] *)
  wormhole : Result unit;
  (** [getEvmSigner(...)], its [address] *)
  getEvmSigner : Result string;
  (** [getAptosSigner(...)], its [address] *)
  getAptosSigner : Result string;
  (** [wh.getChain(name)] *)
  getChain : string -> Result unit;
  (** [Number((await baseSigner.provider.getNetwork()).chainId)] *)
  getNetwork : Result Z;
  (** [Date.now()] *)
  Date_now : Z;
  (** [Wormhole.chainAddress(chain, address)] *)
  chainAddress : string -> string -> Result unit;
  (** [wh.circleTransfer(amount, sender, receiver, false, undefined, 0n)] *)
  circleTransfer : Z -> string -> string -> Result unit;
  (** [CircleTransfer.quoteTransfer(...)] *)
  quoteTransfer : Result unit;
  (** [baseSigner.provider.getTransactionCount(address, 'pending')] *)
  getTransactionCount : Result Z;
  (** [toEvmSdkSigner(baseSigner.signer)] *)
  toEvmSdkSigner : Result unit;
  (** [circleTransfer.initiateTransfer(baseSdkSigner)] *)
  initiateTransfer : Result TxIds;
  (** [circleTransfer.fetchAttestation(timeout)] *)
  fetchAttestation : Z -> Result (option (list string));
  (** [toAptosSdkSigner(...)] *)
  toAptosSdkSigner : Result unit;
  (** [circleTransfer.completeTransfer(aptosSdkSigner)] *)
  completeTransfer : Result TxIds
}.

Section Transfer.
Context {E : Eip712}.

(** The body of the [try] block of [transferUsdcViaCctp]. *)
Definition transferBody (w : World) (request : CctpTransferRequest) : M TransferResult :=
  let network := match config_networkType w with Mainnet => Mainnet | _ => Testnet end in
  let srcChainName := match network with Testnet => "BaseSepolia" | Mainnet => "Base" end in
  _ <- lift (wormhole w) ;;
  baseSigner <- lift (getEvmSigner w) ;;
  aptosSigner <- lift (getAptosSigner w) ;;
  _ <- lift (getChain w srcChainName) ;;
  _ <- lift (getChain w "Aptos") ;;
  amountBigInt <- lift (toSmallestUnits (amount request)) ;;
  let useUserWallet :=
    JsString.truthyOpt (fromAddress request) && JsString.truthyOpt (signature request) in
  sourceAddress <-
    (match useUserWallet, fromAddress request with
     | true, Some from =>
         let sourceAddress := from in
         chainId <- lift (getNetwork w) ;;
         if negb (JsString.truthyOpt (signature request))
         then throw (newError "Signature is required when using user wallet")
         else
           let isValid :=
             verifyUserAuthorization (Date_now w) sourceAddress amountBigInt
               (default "" (signature request)) (permitData request) (Some chainId) in
           if negb isValid
           then throw (newError "User authorization verification failed")
           else ret sourceAddress
     | _, _ => ret baseSigner
     end) ;;
  let recipientAddress := JsString.orElse (destAddress request) aptosSigner in
  _ <- lift (chainAddress w srcChainName sourceAddress) ;;
  _ <- lift (chainAddress w "Aptos" recipientAddress) ;;
  _ <- call (CallCircleTransfer amountBigInt sourceAddress recipientAddress)
            (circleTransfer w amountBigInt sourceAddress recipientAddress) ;;
  _ <- tryCatch (call CallQuoteTransfer (quoteTransfer w)) (fun _ => ret tt) ;;
  _ <- call CallGetTransactionCount (getTransactionCount w) ;;
  _ <- lift (toEvmSdkSigner w) ;;
  srcTxids <- call CallInitiateTransfer (initiateTransfer w) ;;
  let sourceTx := firstTx srcTxids in
  attestationIds <-
    tryCatch
      (ids <- call (CallFetchAttestation 180000) (fetchAttestation w 180000) ;;
       match ids with
       | Some (a :: rest) => ret (a :: rest)
       | _ => throw (newError "Attestation not received after timeout")
       end)
      (fun error =>
         throw (newError
           ("Attestation not received after 180 seconds. " ++
            "This can happen if Circle's attestation service is slow. " ++
            "Please check the transaction on Base Sepolia explorer and try again later. " ++
            "Error: " ++ err_message error))) ;;
  _ <- lift (toAptosSdkSigner w) ;;
  dstTxids <- call CallCompleteTransfer (completeTransfer w) ;;
  let destinationTx := firstTx dstTxids in
  ret {| success := true;
         sourceTx := sourceTx;
         attestationId := head attestationIds;
         destinationTx := destinationTx;
         error := None |}.

(** [transferUsdcViaCctp(request)]: the result and the chain calls made. *)
Definition transferUsdcViaCctp (w : World) (request : CctpTransferRequest)
    : TransferResult * list ChainCall :=
  match transferBody w request [] with
  | (inr result, calls) => (result, calls)
  | (inl error, calls) =>
      ({| success := false;
          sourceTx := None;
          attestationId := None;
          destinationTx := None;
          error := Some (messageOrString error) |}, calls)
  end.

End Transfer.

End DelegatedRevision.

(** ** The transfer when anything may be thrown ([catch (error: any)])

    JavaScript lets a collaborator throw a value that is no [Error] object.
    The delegated-mode revision of [transferUsdcViaCctp] (lines 542-718 of
    [src/src/permit2.ts]) is embedded here a second time, with thrown
    values of any kind, with every step logged together with what it threw,
    and with the [catch] blocks as they are written: each reads
    [error.message], which itself throws on [null] and [undefined].  The
    signing library is the interface [Eip712], whose calls throw [Error]
    objects; [verifyUserAuthorization] is the function of the first
    embedding. *)
Module AnyThrow.

(** A thrown value, as far as the code looks at it. *)
Inductive Thrown :=
| ThrownError (e : JsError)
| ThrownNull
| ThrownUndefined
(** any other value: its [message] property, when it has one, and
    [String(value)] *)
| ThrownValue (message : option string) (shown : string).


(** [error.message]: reading a property of [null] or [undefined] throws a
    [TypeError]. *)
Definition readMessage (error : Thrown) : Thrown + option string :=
  match error with
  | ThrownError e => inr (Some (err_message e))
  | ThrownNull =>
      inl (ThrownError
             (mkJsError TypeErrorC "Cannot read properties of null (reading 'message')"))
  | ThrownUndefined =>
      inl (ThrownError
             (mkJsError TypeErrorC "Cannot read properties of undefined (reading 'message')"))
  | ThrownValue m _ => inr m
  end.

(** [String(error)]. *)
Definition String_of (error : Thrown) : string :=
  match error with
  | ThrownError e => String_of_error e
  | ThrownNull => "null"
  | ThrownUndefined => "undefined"
  | ThrownValue _ shown => shown
  end.

(** [message || String(error)], [message] being what [error.message] gave. *)
Definition messageOr (message : option string) (error : Thrown) : string :=
  match message with
  | Some s => if JsString.truthy s then s else String_of error
  | None => String_of error
  end.

(** A message inside a template literal: [undefined] is shown as such. *)
Definition template (message : option string) : string := default "undefined" message.

(** A result of the first embedding as an answer that may throw anything. *)
Definition ofResult {A : Type} (r : Result A) : Thrown + A :=
  match r with
  | inl e => inl (ThrownError e)
  | inr a => inr a
  end.

(** The steps of a run: the calls of the collaborators, the conversion of
    the amount, and the [throw] statements of the code itself (with the
    property reads that fail). *)
Inductive Step :=
| StepWormhole
| StepGetEvmSigner
| StepGetAptosSigner
| StepGetChain (name : string)
| StepAmount
| StepGetNetwork
| StepChainAddress (chain address : string)
| StepCall (c : ChainCall)
| StepToEvmSdkSigner
| StepToAptosSdkSigner
| StepThrow.

(** What is logged of a step: it returned, or it threw [t]. *)
Inductive Event :=
| Answered (s : Step)
| Threw (s : Step) (t : Thrown).

(** *** Computations that log steps and may throw anything *)

Definition M (A : Type) : Type := list Event -> (Thrown + A) * list Event.

Definition ret {A} (a : A) : M A := fun tr => (inr a, tr).

Definition bind {A B} (m : M A) (f : A -> M B) : M B :=
  fun tr =>
    match m tr with
    | (inr a, tr') => f a tr'
    | (inl t, tr') => (inl t, tr')
    end.

(** A step with the answer the world gives. *)
Definition step {A} (s : Step) (r : Thrown + A) : M A :=
  fun tr =>
    (r, (tr ++ [match r with inl t => Threw s t | inr _ => Answered s end])%list).

(** A [throw] statement. *)
Definition throw {A} (t : Thrown) : M A :=
  fun tr => (inl t, (tr ++ [Threw StepThrow t])%list).

(** [try { m } catch (error) { handler }]. *)
Definition tryCatch {A} (m : M A) (handler : Thrown -> M A) : M A :=
  fun tr =>
    match m tr with
    | (inr a, tr') => (inr a, tr')
    | (inl t, tr') => handler t tr'
    end.

(** [error.message] inside a [catch] block. *)
Definition messageOf (error : Thrown) : M (option string) :=
  match readMessage error with
  | inl t => throw t
  | inr m => ret m
  end.

Notation "x <~ m ;; k" := (bind m (fun x => k))
  (at level 100, m at next level, right associativity).

(** The configuration and the collaborators' answers during one run. *)
Record World := mkWorld {
  config_networkType : NetworkType;
  wormhole : Thrown + unit;
  getEvmSigner : Thrown + string;
  getAptosSigner : Thrown + string;
  getChain : string -> Thrown + unit;
  getNetwork : Thrown + Z;
  Date_now : Z;
  chainAddress : string -> string -> Thrown + unit;
  circleTransfer : Z -> string -> string -> Thrown + unit;
  quoteTransfer : Thrown + unit;
  getTransactionCount : Thrown + Z;
  toEvmSdkSigner : Thrown + unit;
  initiateTransfer : Thrown + TxIds;
  fetchAttestation : Z -> Thrown + option (list string);
  toAptosSdkSigner : Thrown + unit;
  completeTransfer : Thrown + TxIds
}.

(** How a call of [transferUsdcViaCctp] ends: the promise is fulfilled with
    a result, or it is rejected with what escaped. *)
Inductive Outcome :=
| Returned (result : TransferResult)
| Rejected (reason : Thrown).

(** The outer [catch] block (lines 711-717). *)
Definition catchBlock (error : Thrown) : Outcome :=
  (* console.error(`... failed:`, error.message) *)
  match readMessage error with
  | inl t => Rejected t
  | inr message =>
      Returned {| success := false;
                  sourceTx := None;
                  attestationId := None;
                  destinationTx := None;
                  error := Some (messageOr message error) |}
  end.

Section Transfer.
Context {E : Eip712}.
Import DelegatedRevision (CctpTransferRequest, amount, destAddress, fromAddress, signature,
                          permitData).

(** The body of the [try] block of [transferUsdcViaCctp]. *)
Definition transferBody (w : World) (request : CctpTransferRequest) : M TransferResult :=
  let network := match config_networkType w with Mainnet => Mainnet | _ => Testnet end in
  let srcChainName := match network with Testnet => "BaseSepolia" | Mainnet => "Base" end in
  _ <~ step StepWormhole (wormhole w) ;;
  baseSigner <~ step StepGetEvmSigner (getEvmSigner w) ;;
  aptosSigner <~ step StepGetAptosSigner (getAptosSigner w) ;;
  _ <~ step (StepGetChain srcChainName) (getChain w srcChainName) ;;
  _ <~ step (StepGetChain "Aptos") (getChain w "Aptos") ;;
  amountBigInt <~ step StepAmount (ofResult (toSmallestUnits (amount request))) ;;
  let useUserWallet :=
    JsString.truthyOpt (fromAddress request) && JsString.truthyOpt (signature request) in
  sourceAddress <~
    (match useUserWallet, fromAddress request with
     | true, Some from =>
         let sourceAddress := from in
         chainId <~ step StepGetNetwork (getNetwork w) ;;
         if negb (JsString.truthyOpt (signature request))
         then throw (ThrownError (newError "Signature is required when using user wallet"))
         else
           let isValid :=
             verifyUserAuthorization (Date_now w) sourceAddress amountBigInt
               (default "" (signature request)) (permitData request) (Some chainId) in
           if negb isValid
           then throw (ThrownError (newError "User authorization verification failed"))
           else ret sourceAddress
     | _, _ => ret baseSigner
     end) ;;
  let recipientAddress := JsString.orElse (destAddress request) aptosSigner in
  _ <~ step (StepChainAddress srcChainName sourceAddress)
            (chainAddress w srcChainName sourceAddress) ;;
  _ <~ step (StepChainAddress "Aptos" recipientAddress)
            (chainAddress w "Aptos" recipientAddress) ;;
  _ <~ step (StepCall (CallCircleTransfer amountBigInt sourceAddress recipientAddress))
            (circleTransfer w amountBigInt sourceAddress recipientAddress) ;;
  _ <~ tryCatch (step (StepCall CallQuoteTransfer) (quoteTransfer w))
         (fun quoteError =>
            (* console.log(`... (non-critical):`, quoteError.message) *)
            _ <~ messageOf quoteError ;;
            ret tt) ;;
  _ <~ step (StepCall CallGetTransactionCount) (getTransactionCount w) ;;
  _ <~ step StepToEvmSdkSigner (toEvmSdkSigner w) ;;
  srcTxids <~ step (StepCall CallInitiateTransfer) (initiateTransfer w) ;;
  let sourceTx := firstTx srcTxids in
  attestationIds <~
    tryCatch
      (ids <~ step (StepCall (CallFetchAttestation 180000)) (fetchAttestation w 180000) ;;
       match ids with
       | Some (a :: rest) => ret (a :: rest)
       | _ => throw (ThrownError (newError "Attestation not received after timeout"))
       end)
      (fun error =>
         message <~ messageOf error ;;
         throw (ThrownError (newError
           ("Attestation not received after 180 seconds. " ++
            "This can happen if Circle's attestation service is slow. " ++
            "Please check the transaction on Base Sepolia explorer and try again later. " ++
            "Error: " ++ template message)))) ;;
  _ <~ step StepToAptosSdkSigner (toAptosSdkSigner w) ;;
  dstTxids <~ step (StepCall CallCompleteTransfer) (completeTransfer w) ;;
  let destinationTx := firstTx dstTxids in
  ret {| success := true;
         sourceTx := sourceTx;
         attestationId := head attestationIds;
         destinationTx := destinationTx;
         error := None |}.

(** [transferUsdcViaCctp(request)]: how the call ends, and the steps made. *)
Definition transferUsdcViaCctp (w : World) (request : CctpTransferRequest)
    : Outcome * list Event :=
  match transferBody w request [] with
  | (inr result, log) => (Returned result, log)
  | (inl error, log) => (catchBlock error, log)
  end.

End Transfer.






(** The world of the first embedding, whose collaborators throw [Error]
    objects only. *)
Definition ofWorld (w : DelegatedRevision.World) : World :=
  {| config_networkType := DelegatedRevision.config_networkType w;
     wormhole := ofResult (DelegatedRevision.wormhole w);
     getEvmSigner := ofResult (DelegatedRevision.getEvmSigner w);
     getAptosSigner := ofResult (DelegatedRevision.getAptosSigner w);
     getChain := fun name => ofResult (DelegatedRevision.getChain w name);
     getNetwork := ofResult (DelegatedRevision.getNetwork w);
     Date_now := DelegatedRevision.Date_now w;
     chainAddress := fun chain address =>
       ofResult (DelegatedRevision.chainAddress w chain address);
     circleTransfer := fun a s r => ofResult (DelegatedRevision.circleTransfer w a s r);
     quoteTransfer := ofResult (DelegatedRevision.quoteTransfer w);
     getTransactionCount := ofResult (DelegatedRevision.getTransactionCount w);
     toEvmSdkSigner := ofResult (DelegatedRevision.toEvmSdkSigner w);
     initiateTransfer := ofResult (DelegatedRevision.initiateTransfer w);
     fetchAttestation := fun timeout =>
       ofResult (DelegatedRevision.fetchAttestation w timeout);
     toAptosSdkSigner := ofResult (DelegatedRevision.toAptosSdkSigner w);
     completeTransfer := ofResult (DelegatedRevision.completeTransfer w) |}.

(** The chain calls among the steps. *)
Definition callsOf (log : list Event) : list ChainCall :=
  omap (fun ev =>
          match ev with
          | Answered (StepCall c) | Threw (StepCall c) _ => Some c
          | _ => None
          end) log.

End AnyThrow.

(** ** The attestation polling loop ([src/cctpTransfer.ts] in its polling
    revision: lines 350-391 of [src/src/permit2.ts])

    The block of [transferUsdcViaCctp] from [let delay = 2000] to the check
    that follows the [while] loop.  The clock is explicit: an attempt takes
    the time the world says, a sleep takes the timer's delay and the lag the
    world adds. *)
Module PollingRevision.

(** One call of [circleTransfer.fetchAttestation(10000)]: how long it
    took, what it returned or threw, and how late the timer of the sleep
    that may follow fires. *)
Record Attempt := mkAttempt {
  fetch_ms : Z;
  fetch_answer : Result (option (list string));
  timer_lag : Z
}.

Inductive PollEvent :=
| Fetch (elapsedAtStart : Z)
| Sleep (delay : JsNumber.number).

Record PollState := mkPollState {
  clock : Z;
  delay : JsNumber.number;
  attestationIds : option (list string);
  attempt : nat;
  log : list PollEvent
}.

Definition maxTimeout : Z := 180000.

(** [attestationIds && attestationIds.length > 0] *)
Definition received (ids : option (list string)) : bool :=
  match ids with
  | Some (_ :: _) => true
  | _ => false
  end.

(** [error.message?.includes('timeout') || error.message?.includes('not found')] *)
Definition notReadyYet (e : JsError) : bool :=
  JsString.includes "timeout" (err_message e) || JsString.includes "not found" (err_message e).

(** The literal [1.5]. *)
Definition onePointFive : JsNumber.number := JsNumber.ofDecimal false 15 (-1).

(** [Math.min(delay * 1.5, 30000)] *)
Definition nextDelay (delay : JsNumber.number) : JsNumber.number :=
  JsNumber.Math_min (JsNumber.mul delay onePointFive) (JsNumber.ofZ 30000).

Definition initialState (startTime : Z) : PollState :=
  {| clock := startTime;
     delay := JsNumber.ofZ 2000;
     attestationIds := None;
     attempt := 0;
     log := [] |}.

(** The [while] loop and the check after it; [fuel] bounds the number of
    iterations.  The result is what the block leaves: the attestation ids
    or the thrown error, with the final state. *)
Fixpoint pollLoop (fuel : nat) (attempts : nat -> Attempt) (startTime : Z)
    (st : PollState) : option (Result (list string) * PollState) :=
  match fuel with
  | O => None
  | S fuel' =>
      if clock st - startTime <? maxTimeout then
        let a := attempts (attempt st) in
        let st1 :=
          {| clock := clock st + fetch_ms a;
             delay := delay st;
             attestationIds := attestationIds st;
             attempt := S (attempt st);
             log := (log st ++ [Fetch (clock st - startTime)])%list |} in
        match fetch_answer a with
        | inr ids =>
            let st2 :=
              {| clock := clock st1; delay := delay st1; attestationIds := ids;
                 attempt := attempt st1; log := log st1 |} in
            if received ids then Some (inr (default [] ids), st2)
            else pollLoop fuel' attempts startTime st2
        | inl error =>
            let elapsed := clock st1 - startTime in
            let remaining := maxTimeout - elapsed in
            if remaining <=? 0 then
              Some (inl (newError
                      ("Attestation not received after 180 seconds. " ++
                       "This can happen if Circle's attestation service is slow. " ++
                       "Please check the transaction on Base Sepolia explorer and try again later.")),
                    st1)
            else if notReadyYet error then
              pollLoop fuel' attempts startTime
                {| clock := clock st1 + JsNumber.truncToZ (delay st1) + timer_lag a;
                   delay := nextDelay (delay st1);
                   attestationIds := attestationIds st1;
                   attempt := attempt st1;
                   log := (log st1 ++ [Sleep (delay st1)])%list |}
            else Some (inl error, st1)
        end
      else if received (attestationIds st) then Some (inr (default [] (attestationIds st)), st)
      else
        Some (inl (newError
                ("Attestation not received after 180 seconds. " ++
                 "Please check the transaction on Base Sepolia explorer and try again later.")),
              st)
  end.

Definition pollAttestation (fuel : nat) (attempts : nat -> Attempt) (startTime : Z)
    : option (Result (list string) * PollState) :=
  pollLoop fuel attempts startTime (initialState startTime).

(** The delay before the [n]-th sleep. *)
Fixpoint backoff (n : nat) : JsNumber.number :=
  match n with
  | O => JsNumber.ofZ 2000
  | S m => nextDelay (backoff m)
  end.

(** The delays slept, in order. *)
Definition sleeps (l : list PollEvent) : list JsNumber.number :=
  omap (fun e => match e with Sleep d => Some d | Fetch _ => None end) l.

(** The elapsed times at which attempts started, in order. *)
Definition fetchStarts (l : list PollEvent) : list Z :=
  omap (fun e => match e with Fetch t => Some t | Sleep _ => None end) l.

(** What holds of the state at the head of every iteration: the delay is
    the next one of the backoff, the delays slept so far are the ones
    before it, and every attempt started before the deadline. *)
Definition loopInvariant (st : PollState) (k : nat) : Prop :=
  delay st = backoff k
  /\ sleeps (log st) = map backoff (seq 0 k)
  /\ Forall (fun t => t < maxTimeout) (fetchStarts (log st)).

End PollingRevision.

(** ** The transfer in its polling revision (lines 249-414 of
    [src/src/permit2.ts]) *)
Module PollingTransfer.

Record CctpTransferRequest := mkRequest {
  amount : string;
  destAddress : option string
}.

(** The configuration and the collaborators' answers during one run. *)
Record World := mkWorld {
  config_networkType : NetworkType;
  (** [wormhole(network, [evm, aptos], ...)] *)
  wormhole : Result unit;
  (** [getEvmSigner(...)], its [address] *)
  getEvmSigner : Result string;
  (** [getAptosSigner(...)], its [address] *)
  getAptosSigner : Result string;
  (** [wh.getChain(name)] *)
  getChain : string -> Result unit;
  (** [chain.chainAddress(address)] of the chain context named [chain] *)
  chainAddress : string -> string -> Result unit;
  (** [wh.circleTransfer(amount, sender, receiver, false, undefined, 0)] *)
  circleTransfer : Z -> string -> string -> Result unit;
  (** [CircleTransfer.quoteTransfer(...)] *)
  quoteTransfer : Result unit;
  (** [circleTransfer.initiateTransfer(baseSigner.signer)] *)
  initiateTransfer : Result TxIds;
  (** [Date.now()] when the polling starts *)
  startTime : Z;
  (** the calls of [circleTransfer.fetchAttestation(10000)], in order *)
  attempts : nat -> PollingRevision.Attempt;
  (** [circleTransfer.completeTransfer(aptosSigner.account)] *)
  completeTransfer : Result TxIds
}.

(** The [try] block up to the source transaction: its first id. *)
Definition submitSource (w : World) (request : CctpTransferRequest) : M (option string) :=
  let network := match config_networkType w with Mainnet => Mainnet | _ => Testnet end in
  _ <- lift (wormhole w) ;;
  baseSigner <- lift (getEvmSigner w) ;;
  aptosSigner <- lift (getAptosSigner w) ;;
  _ <- lift (getChain w "Base") ;;
  _ <- lift (getChain w "Aptos") ;;
  amountBigInt <- lift (toSmallestUnits (amount request)) ;;
  let recipientAddress := JsString.orElse (destAddress request) aptosSigner in
  _ <- lift (chainAddress w "Base" baseSigner) ;;
  _ <- lift (chainAddress w "Aptos" recipientAddress) ;;
  _ <- call (CallCircleTransfer amountBigInt baseSigner recipientAddress)
            (circleTransfer w amountBigInt baseSigner recipientAddress) ;;
  _ <- call CallQuoteTransfer (quoteTransfer w) ;;
  srcTxids <- call CallInitiateTransfer (initiateTransfer w) ;;
  ret (firstTx srcTxids).

(** The chain calls of the polling loop: one per attempt. *)
Definition fetchCalls (l : list PollingRevision.PollEvent) : list ChainCall :=
  map (fun _ => CallFetchAttestation 10000) (PollingRevision.fetchStarts l).

(** The polling loop as a logged computation, [None] when [fuel] runs out. *)
Definition awaitAttestation (fuel : nat) (w : World) : option (M (list string)) :=
  match PollingRevision.pollAttestation fuel (attempts w) (startTime w) with
  | None => None
  | Some (r, st) => Some (fun tr => (r, (tr ++ fetchCalls (PollingRevision.log st))%list))
  end.

(** The [try] block from the destination transaction on. *)
Definition completeOnDestination (w : World) (sourceTx : option string)
    (attestationIds : list string) : M TransferResult :=
  dstTxids <- call CallCompleteTransfer (completeTransfer w) ;;
  let destinationTx := firstTx dstTxids in
  ret {| success := true;
         sourceTx := sourceTx;
         attestationId := head attestationIds;
         destinationTx := destinationTx;
         error := None |}.

(** [catch (error) { return { success: false, error: ... } }] *)
Definition failed (e : JsError) : TransferResult :=
  {| success := false;
     sourceTx := None;
     attestationId := None;
     destinationTx := None;
     error := Some (messageOrString e) |}.

(** [transferUsdcViaCctp(request)]: the result and the chain calls made,
    [None] when [fuel] does not suffice for the polling loop. *)
Definition transferUsdcViaCctp (fuel : nat) (w : World) (request : CctpTransferRequest)
    : option (TransferResult * list ChainCall) :=
  match submitSource w request [] with
  | (inl e, calls) => Some (failed e, calls)
  | (inr sourceTx, calls) =>
      match awaitAttestation fuel w with
      | None => None
      | Some polling =>
          match polling calls with
          | (inl e, calls') => Some (failed e, calls')
          | (inr attestationIds, calls') =>
              match completeOnDestination w sourceTx attestationIds calls' with
              | (inl e, calls'') => Some (failed e, calls'')
              | (inr result, calls'') => Some (result, calls'')
              end
          end
      end
  end.

End PollingTransfer.

(** ** The command-line runner ([src/runCctp.ts] in its first revision:
    lines 1-109 of [src/unnamed/part_001]) *)
Module RunCctp.

(** What [parseArgs] leaves: the process has exited with code 0 after
    printing the usage, or the values read. *)
Inductive Parsed :=
| ExitedWithUsage
| Values (amount to : option string).

(** The [for] loop of [parseArgs] from position [i] on, [args] being what
    is left from there. *)
Fixpoint parseLoop (args : list string) (amount to : option string) : Parsed :=
  match args with
  | [] => Values amount to
  | a :: rest =>
      match rest with
      | v :: rest' =>
          if String.eqb a "--amount" then parseLoop rest' (Some v) to
          else if String.eqb a "--to" then parseLoop rest' amount (Some v)
          else if String.eqb a "--help" || String.eqb a "-h" then ExitedWithUsage
          else parseLoop rest amount to
      | [] =>
          if String.eqb a "--help" || String.eqb a "-h" then ExitedWithUsage
          else Values amount to
      end
  end.

Definition parseArgs (argv : list string) : Parsed := parseLoop argv None None.

Definition isHexDigit (c : ascii) : bool :=
  let n := N_of_ascii c in
  ((48 <=? n) && (n <=? 57) || (65 <=? n) && (n <=? 70) || (97 <=? n) && (n <=? 102))%N.

Fixpoint allHex (s : string) : bool :=
  match s with
  | EmptyString => true
  | String c r => isHexDigit c && allHex r
  end.

(** [/^[0-9a-fA-F]{64}$/.test(s)] *)
Definition isHex64 (s : string) : bool :=
  (String.length s =? 64)%nat && allHex s.

(** [to.startsWith("0x") ? to.slice(2) : to] *)
Definition cleanAddr (to : string) : string :=
  match to with
  | String "0" (String "x" r) => r
  | _ => to
  end.

(** [isNaN(amountNum) || amountNum <= 0] *)
Definition invalidAmount (amountNum : JsNumber.number) : bool :=
  match amountNum with
  | S754_nan => true
  | _ => SFleb amountNum (S754_zero false)
  end.

(** [main()]: the exit code of the process and the chain calls made, [None]
    when [fuel] does not suffice for the polling loop. *)
Definition main (fuel : nat) (w : PollingTransfer.World) (argv : list string)
    : option (Z * list ChainCall) :=
  match parseArgs argv with
  | ExitedWithUsage => Some (0, [])
  | Values amount to =>
      match amount with
      | None => Some (1, [])
      | Some amount =>
          if negb (JsString.truthy amount) then Some (1, [])
          else
            let amountNum := JsNumber.parseFloat amount in
            if invalidAmount amountNum then Some (1, [])
            else if JsString.truthyOpt to && negb (isHex64 (cleanAddr (default "" to)))
            then Some (1, [])
            else
              match PollingTransfer.transferUsdcViaCctp fuel w
                      {| PollingTransfer.amount := amount;
                         PollingTransfer.destAddress := to |} with
              | None => None
              | Some (result, calls) =>
                  if success result then Some (0, calls) else Some (1, calls)
              end
      end
  end.

End RunCctp.

(** ** Configuration ([src/config.ts])

    [process.env], as it is once the [.env] files are loaded, is a finite
    map from names to strings. *)
Module ConfigTs.

Record Config := mkConfig {
  baseRpcUrl : string;
  aptosRpcUrl : string;
  baseSponsorPrivateKey : string;
  aptosSponsorPrivateKey : string;
  networkType : string;
  baseUsdcAddress : option string;
  baseTokenMessengerAddress : option string;
  baseMessageTransmitterAddress : option string
}.

(** [Partial<Config>]: every field may be absent. *)
Record PartialConfig := mkPartial {
  p_baseRpcUrl : option string;
  p_aptosRpcUrl : option string;
  p_baseSponsorPrivateKey : option string;
  p_aptosSponsorPrivateKey : option string;
  p_networkType : option string;
  p_baseUsdcAddress : option string;
  p_baseTokenMessengerAddress : option string;
  p_baseMessageTransmitterAddress : option string
}.

Definition getRequiredEnv (env : gmap string string) (key : string) : Result string :=
  match env !! key with
  | Some value =>
      if JsString.truthy value then inr value
      else inl (newError ("Missing required environment variable: " ++ key))
  | None => inl (newError ("Missing required environment variable: " ++ key))
  end.

Definition getOptionalEnv (env : gmap string string) (key : string) : option string :=
  env !! key.

(** [a || b] where both may be [undefined]. *)
Definition orOptional (a b : option string) : option string :=
  if JsString.truthyOpt a then a else b.

(** [a || required], where evaluating [required] may throw. *)
Definition orRequired (a : option string) (required : Result string) : Result string :=
  match a with
  | Some s => if JsString.truthy s then inr s else required
  | None => required
  end.

(** The exported constant [config]; evaluating it may throw. *)
Definition config (env : gmap string string) : Result Config :=
  match getRequiredEnv env "BASE_RPC_URL" with
  | inl e => inl e
  | inr baseRpcUrl =>
  match getRequiredEnv env "APTOS_RPC_URL" with
  | inl e => inl e
  | inr aptosRpcUrl =>
  match getRequiredEnv env "BASE_SPONSOR_PRIVATE_KEY" with
  | inl e => inl e
  | inr baseSponsorPrivateKey =>
  match getRequiredEnv env "APTOS_SPONSOR_PRIVATE_KEY" with
  | inl e => inl e
  | inr aptosSponsorPrivateKey =>
      inr {| baseRpcUrl := baseRpcUrl;
             aptosRpcUrl := aptosRpcUrl;
             baseSponsorPrivateKey := baseSponsorPrivateKey;
             aptosSponsorPrivateKey := aptosSponsorPrivateKey;
             networkType := JsString.orElse (getOptionalEnv env "NETWORK_TYPE") "Testnet";
             baseUsdcAddress := getOptionalEnv env "BASE_USDC_ADDRESS";
             baseTokenMessengerAddress := getOptionalEnv env "BASE_TOKEN_MESSENGER_ADDRESS";
             baseMessageTransmitterAddress :=
               getOptionalEnv env "BASE_MESSAGE_TRANSMITTER_ADDRESS" |}
  end end end end.

(** [createConfig(override)]. *)
Definition createConfig (env : gmap string string) (override : PartialConfig) : Result Config :=
  match orRequired (p_baseRpcUrl override) (getRequiredEnv env "BASE_RPC_URL") with
  | inl e => inl e
  | inr baseRpcUrl =>
  match orRequired (p_aptosRpcUrl override) (getRequiredEnv env "APTOS_RPC_URL") with
  | inl e => inl e
  | inr aptosRpcUrl =>
  match orRequired (p_baseSponsorPrivateKey override)
          (getRequiredEnv env "BASE_SPONSOR_PRIVATE_KEY") with
  | inl e => inl e
  | inr baseSponsorPrivateKey =>
  match orRequired (p_aptosSponsorPrivateKey override)
          (getRequiredEnv env "APTOS_SPONSOR_PRIVATE_KEY") with
  | inl e => inl e
  | inr aptosSponsorPrivateKey =>
      inr {| baseRpcUrl := baseRpcUrl;
             aptosRpcUrl := aptosRpcUrl;
             baseSponsorPrivateKey := baseSponsorPrivateKey;
             aptosSponsorPrivateKey := aptosSponsorPrivateKey;
             networkType :=
               JsString.orElse (p_networkType override)
                 (JsString.orElse (getOptionalEnv env "NETWORK_TYPE") "Testnet");
             baseUsdcAddress :=
               orOptional (p_baseUsdcAddress override) (getOptionalEnv env "BASE_USDC_ADDRESS");
             baseTokenMessengerAddress :=
               orOptional (p_baseTokenMessengerAddress override)
                 (getOptionalEnv env "BASE_TOKEN_MESSENGER_ADDRESS");
             baseMessageTransmitterAddress :=
               orOptional (p_baseMessageTransmitterAddress override)
                 (getOptionalEnv env "BASE_MESSAGE_TRANSMITTER_ADDRESS") |}
  end end end end.

(** [{}]: nothing overridden. *)
Definition noOverride : PartialConfig :=
  {| p_baseRpcUrl := None; p_aptosRpcUrl := None; p_baseSponsorPrivateKey := None;
     p_aptosSponsorPrivateKey := None; p_networkType := None; p_baseUsdcAddress := None;
     p_baseTokenMessengerAddress := None; p_baseMessageTransmitterAddress := None |}.

(** The required settings: the variable and the override field of each, in
    the order in which they are read. *)
Definition required : list (string * (PartialConfig -> option string)) :=
  [ ("BASE_RPC_URL", p_baseRpcUrl);
    ("APTOS_RPC_URL", p_aptosRpcUrl);
    ("BASE_SPONSOR_PRIVATE_KEY", p_baseSponsorPrivateKey);
    ("APTOS_SPONSOR_PRIVATE_KEY", p_aptosSponsorPrivateKey) ].

(** A required setting is given by the override or by the environment. *)
Definition given (env : gmap string string) (override : PartialConfig)
    (r : string * (PartialConfig -> option string)) : bool :=
  JsString.truthyOpt (snd r override) || JsString.truthyOpt (env !! fst r).

(** [config.networkType === "Mainnet" ? "Mainnet" : "Testnet"], the network
    that [transferUsdcViaCctp] selects. *)
Definition selectedNetwork (c : Config) : NetworkType :=
  if String.eqb (networkType c) "Mainnet" then Mainnet else Testnet.

End ConfigTs.

(** ** The signature helper ([src/generatePermit2.ts]: lines 294-491 of
    [src/unnamed/part_001])

    Strings are ASCII.  [deadlineHours] is the integer that [parseInt]
    returned; [undefined] and [NaN], both falsy, are [None]. *)
Module GeneratePermit2.

Record Permit2GenerationArgs := mkArgs {
  fromPrivateKey : string;
  amount : string;
  tokenAddress : option string;
  spenderAddress : option string;
  nonce : option string;
  deadlineHours : option Z
}.

(** The value of the digit [c] in [base], which is at most 16. *)
Definition digitIn (base : Z) (c : ascii) : option Z :=
  let n := Z.of_N (N_of_ascii c) in
  let d :=
    if (48 <=? n) && (n <=? 57) then Some (n - 48)
    else if (97 <=? n) && (n <=? 102) then Some (n - 87)
    else if (65 <=? n) && (n <=? 70) then Some (n - 55)
    else None in
  match d with
  | Some d => if d <? base then Some d else None
  | None => None
  end.

(** The longest run of digits of [base] at the head of [s]: the value of
    [acc] followed by the digits, how many digits were read, the rest. *)
Fixpoint readDigits (base : Z) (s : string) (acc : Z) (n : nat) : Z * nat * string :=
  match s with
  | String c r =>
      match digitIn base c with
      | Some d => readDigits base r (base * acc + d) (S n)
      | None => (acc, n, s)
      end
  | EmptyString => (acc, n, s)
  end.

(** [BigInt(s)] on a string: white space around an optional integer
    literal, decimal with an optional sign or with a radix prefix; [None]
    when it throws a [SyntaxError]. *)
Definition BigInt_ofString (s : string) : option Z :=
  match JsNumber.skipWhiteSpace s with
  | EmptyString => Some 0
  | s1 =>
      let '(base, neg, body) :=
        match s1 with
        | String "0" (String "x" r) | String "0" (String "X" r) => (16, false, r)
        | String "0" (String "o" r) | String "0" (String "O" r) => (8, false, r)
        | String "0" (String "b" r) | String "0" (String "B" r) => (2, false, r)
        | String "-" r => (10, true, r)
        | String "+" r => (10, false, r)
        | _ => (10, false, s1)
        end in
      let '(v, n, rest) := readDigits base body 0 0 in
      match n, JsNumber.skipWhiteSpace rest with
      | S _, EmptyString => Some (if neg then - v else v)
      | _, _ => None
      end
  end.

(** How a run of [generateSignature] ends: it has printed the signature and
    the permit data, or the [catch] printed the error's message and the
    process exited with code 1. *)
Inductive Outcome :=
| Printed (signature : string) (permit : Permit2Permit)
| Exit1 (message : string).

(** The largest time value of a [Date], in milliseconds. *)
Definition maxTimeValue : Z := 8640000000000000.

Section Generate.
Context {E : Eip712}.

(** The collaborators' answers during one run. *)
Record World := mkWorld {
  (** [Number((await provider.getNetwork()).chainId)] *)
  getNetwork : Result Z;
  (** [new ethers.Wallet(formattedKey, provider)] *)
  Wallet : string -> Result signingKey;
  (** [Date.now()] when the permit is created *)
  Date_now : Z
}.

Definition generateSignature (w : World) (args : Permit2GenerationArgs) : Outcome :=
  match getNetwork w with
  | inl e => Exit1 (err_message e)
  | inr chainId =>
  let formattedKey :=
    if JsString.startsWith "0x" (fromPrivateKey args)
    then fromPrivateKey args
    else "0x" ++ fromPrivateKey args in
  match Wallet w formattedKey with
  | inl e => Exit1 (err_message e)
  | inr signer =>
  let userAddress := wallet_address signer in
  let tokenAddress :=
    JsString.orElse (tokenAddress args) "0x036CbD53842c5426634e7929541eC2318f3dCF7e" in
  let spenderAddress := JsString.orElse (spenderAddress args) getPermit2Address in
  match toSmallestUnits (amount args) with
  | inl e => Exit1 (err_message e)
  | inr amountBigInt =>
  match (if JsString.truthyOpt (nonce args)
         then BigInt_ofString (default "" (nonce args))
         else Some 0) with
  | None => Exit1 ("Cannot convert " ++ default "" (nonce args) ++ " to a BigInt")
  | Some nonce =>
  let deadlineHours :=
    match deadlineHours args with
    | Some h => if h =? 0 then 1 else h
    | None => 1
    end in
  let permit :=
    createPermit (Date_now w) userAddress spenderAddress tokenAddress amountBigInt nonce
      (deadlineHours * 3600) in
  (* new Date(Number(permit.deadline) * 1000).toISOString() *)
  if Z.abs (deadline permit * 1000) >? maxTimeValue then Exit1 "Invalid time value" else
  match generatePermit2Signature signer permit chainId with
  | inl e => Exit1 (err_message e)
  | inr signature => Printed signature permit
  end end end end end.

End Generate.

End GeneratePermit2.

(** ** Example data *)

Definition alice : string := "0x1aB36Be80FC1f2e75F183F346947C0894622459a".
Definition mallory : string := "0x00000000000000000000000000000000000000E5".

Definition examplePermit : Permit2Permit :=
  {| owner := alice;
     spender := PERMIT2_ADDRESS;
     token := BASE_SEPOLIA_USDC;
     value := 200000;
     nonce := 0;
     deadline := 1764470597 |}.

(** The example permit with another owner written into it. *)
Definition reownedPermit : Permit2Permit :=
  {| owner := mallory;
     spender := spender examplePermit;
     token := token examplePermit;
     value := value examplePermit;
     nonce := nonce examplePermit;
     deadline := deadline examplePermit |}.

(** A permit for the value [v]. *)
Definition hugePermit (v : Z) : Permit2Permit :=
  {| owner := alice;
     spender := PERMIT2_ADDRESS;
     token := BASE_SEPOLIA_USDC;
     value := v;
     nonce := 0;
     deadline := 1764470597 |}.

(** A permit that names an arbitrary spender and token. *)
Definition strangePermit : Permit2Permit :=
  {| owner := alice;
     spender := mallory;
     token := "0x00000000000000000000000000000000DeaDBeef";
     value := 200000;
     nonce := 7;
     deadline := 1764470597 |}.

(** A clock reading (milliseconds) before and one after the example
    deadline. *)
Definition beforeDeadline : Z := 1764467000000.
Definition afterDeadline : Z := 1764470598000.

(** The amount string read as an exact decimal with at most six decimal
    places, in millionths: the smallest-unit conversion the design document
    describes.  [None] when the string is not of the form digits[.digits]. *)
Definition exactSmallestUnits (amount : string) : option Z :=
  let '(ip, ni, rest) := JsNumber.takeDigits amount 0 0 in
  let '(m, nf, rest') :=
    match rest with
    | String "." r => JsNumber.takeDigits r ip 0
    | _ => (ip, 0, rest)
    end in
  match rest' with
  | EmptyString =>
      if (0 <? ni) && (nf <=? 6) then Some (m * 10 ^ (6 - nf)) else None
  | _ => None
  end.

(** A world in which every collaborator answers. *)
Definition friendlyWorld (now : Z) : DelegatedRevision.World :=
  {| DelegatedRevision.config_networkType := Testnet;
     DelegatedRevision.wormhole := inr tt;
     DelegatedRevision.getEvmSigner := inr "0x70997970C51812dc3A010C7d01b50e0d17dc79C8";
     DelegatedRevision.getAptosSigner :=
       inr "0xc3e2a21da9f68dcd3ad8668c8fb72ede9f46fea67652fbffa9db8f8af0c612cf";
     DelegatedRevision.getChain := fun _ => inr tt;
     DelegatedRevision.getNetwork := inr BASE_SEPOLIA_CHAIN_ID;
     DelegatedRevision.Date_now := now;
     DelegatedRevision.chainAddress := fun _ _ => inr tt;
     DelegatedRevision.circleTransfer := fun _ _ _ => inr tt;
     DelegatedRevision.quoteTransfer := inr tt;
     DelegatedRevision.getTransactionCount := inr 12;
     DelegatedRevision.toEvmSdkSigner := inr tt;
     DelegatedRevision.initiateTransfer := inr (TxMany ["0xsourcetx"]);
     DelegatedRevision.fetchAttestation := fun _ => inr (Some ["0xattestation"]);
     DelegatedRevision.toAptosSdkSigner := inr tt;
     DelegatedRevision.completeTransfer := inr (TxMany ["0xdestinationtx"]) |}.

(** A direct-mode request for [amount]. *)
Definition directRequest (amount : string) : DelegatedRevision.CctpTransferRequest :=
  {| DelegatedRevision.amount := amount;
     DelegatedRevision.destAddress := None;
     DelegatedRevision.fromAddress := None;
     DelegatedRevision.signature := None;
     DelegatedRevision.permitData := None |}.



(** An attestation service that answers "timeout" after ten seconds, every
    time, with exact timers. *)
Definition slowService (i : nat) : PollingRevision.Attempt :=
  {| PollingRevision.fetch_ms := 10000;
     PollingRevision.fetch_answer := inl (newError "Request timeout");
     PollingRevision.timer_lag := 0 |}.

(** The delays of the backoff, in milliseconds: each is 1.5 times the one
    before until 30000 is reached. *)
Definition backoffTable : list JsNumber.number :=
  [ JsNumber.ofZ 2000; JsNumber.ofZ 3000; JsNumber.ofZ 4500; JsNumber.ofZ 6750;
    JsNumber.ofZ 10125; JsNumber.ofDecimal false 151875 (-1);
    JsNumber.ofDecimal false 2278125 (-2); JsNumber.ofZ 30000 ].


(** The chain calls of a complete run, for a transfer of [a] from [s] to [r]. *)
Definition fullRun (a : Z) (s r : string) : list ChainCall :=
  [ CallCircleTransfer a s r; CallQuoteTransfer; CallGetTransactionCount;
    CallInitiateTransfer; CallFetchAttestation 180000; CallCompleteTransfer ].

(** The attempt does not deliver: it throws a not-ready error or returns no
    attestation. *)
Definition notDelivering (a : PollingRevision.Attempt) : Prop :=
  match PollingRevision.fetch_answer a with
  | inl e => PollingRevision.notReadyYet e = true
  | inr ids => PollingRevision.received ids = false
  end.

(** The two errors with which the polling block gives up. *)
Definition timeoutInCatch : JsError :=
  newError
    ("Attestation not received after 180 seconds. " ++
     "This can happen if Circle's attestation service is slow. " ++
     "Please check the transaction on Base Sepolia explorer and try again later.").

Definition timeoutAfterLoop : JsError :=
  newError
    ("Attestation not received after 180 seconds. " ++
     "Please check the transaction on Base Sepolia explorer and try again later.").

(** The chain calls of a complete run of the polling revision with [n]
    attempts. *)
Definition fullPollingRun (a : Z) (s r : string) (n : nat) : list ChainCall :=
  ([ CallCircleTransfer a s r; CallQuoteTransfer; CallInitiateTransfer ]
   ++ replicate n (CallFetchAttestation 10000) ++ [ CallCompleteTransfer ])%list.

(** [x] is not a negative finite number. *)
Definition notNegative (x : JsNumber.number) : Prop :=
  match x with
  | S754_finite true _ _ => False
  | _ => True
  end.

(** Arguments of the helper that leave every option at its default. *)
Definition plainArgs (key amount : string) : GeneratePermit2.Permit2GenerationArgs :=
  {| GeneratePermit2.fromPrivateKey := key;
     GeneratePermit2.amount := amount;
     GeneratePermit2.tokenAddress := None;
     GeneratePermit2.spenderAddress := None;
     GeneratePermit2.nonce := None;
     GeneratePermit2.deadlineHours := None |}.

(** A world of the helper in which the key is the address it controls, on
    Base Sepolia, at the clock reading [now]. *)
Definition helperWorld (now : Z) : GeneratePermit2.World (E := Symbolic.eip712) :=
  {| GeneratePermit2.getNetwork := inr BASE_SEPOLIA_CHAIN_ID;
     GeneratePermit2.Wallet := fun k => inr (k : @signingKey Symbolic.eip712);
     GeneratePermit2.Date_now := now |}.


(** A world of the polling revision in which every collaborator answers,
    but for the quote and the attestation service, which are given. *)
Definition pollingWorld (quote : Result unit) (attempts : nat -> PollingRevision.Attempt)
    : PollingTransfer.World :=
  {| PollingTransfer.config_networkType := Testnet;
     PollingTransfer.wormhole := inr tt;
     PollingTransfer.getEvmSigner := inr "0x70997970C51812dc3A010C7d01b50e0d17dc79C8";
     PollingTransfer.getAptosSigner :=
       inr "0xc3e2a21da9f68dcd3ad8668c8fb72ede9f46fea67652fbffa9db8f8af0c612cf";
     PollingTransfer.getChain := fun _ => inr tt;
     PollingTransfer.chainAddress := fun _ _ => inr tt;
     PollingTransfer.circleTransfer := fun _ _ _ => inr tt;
     PollingTransfer.quoteTransfer := quote;
     PollingTransfer.initiateTransfer := inr (TxMany ["0xsourcetx"]);
     PollingTransfer.startTime := 1000000;
     PollingTransfer.attempts := attempts;
     PollingTransfer.completeTransfer := inr (TxMany ["0xdestinationtx"]) |}.

(** An attestation service that answers "timeout" twice and delivers at the
    third attempt. *)
Definition thirdTimeLucky (i : nat) : PollingRevision.Attempt :=
  if (i <? 2)%nat then slowService i
  else {| PollingRevision.fetch_ms := 800;
          PollingRevision.fetch_answer := inr (Some ["0xattestation"]);
          PollingRevision.timer_lag := 0 |}.

(** A request of the polling revision for 1.5 USDC to the sponsor's own
    Aptos address. *)
Definition pollingRequest : PollingTransfer.CctpTransferRequest :=
  {| PollingTransfer.amount := "1.5"; PollingTransfer.destAddress := None |}.

(** An environment with the four required variables, and a network type in
    lower case. *)
Definition exampleEnv : gmap string string :=
  list_to_map
    [ ("BASE_RPC_URL", "https://sepolia.base.org");
      ("APTOS_RPC_URL", "https://fullnode.testnet.aptoslabs.com/v1");
      ("BASE_SPONSOR_PRIVATE_KEY", "0xbasekey");
      ("APTOS_SPONSOR_PRIVATE_KEY", "0xaptoskey");
      ("NETWORK_TYPE", "mainnet") ].

(** An override of the RPC URL of Base, with an empty network type. *)
Definition exampleOverride : ConfigTs.PartialConfig :=
  {| ConfigTs.p_baseRpcUrl := Some "http://localhost:8545";
     ConfigTs.p_aptosRpcUrl := None;
     ConfigTs.p_baseSponsorPrivateKey := None;
     ConfigTs.p_aptosSponsorPrivateKey := None;
     ConfigTs.p_networkType := Some "";
     ConfigTs.p_baseUsdcAddress := None;
     ConfigTs.p_baseTokenMessengerAddress := None;
     ConfigTs.p_baseMessageTransmitterAddress := None |}.


(** * Properties *)

(** ** Strings and constants *)

Lemma maxUint160_hex : 0xffffffffffffffffffffffffffffffffffffffff = maxUint160.
Proof. reflexivity. Qed.

Lemma maxUint48_hex : 0xffffffffffff = maxUint48.
Proof. reflexivity. Qed.

Lemma clamp_min (v m : Z) : (if v >? m then m else v) = Z.min v m.
Proof. destruct (Z.gtb_spec v m); lia. Qed.

(** ** The symbolic signing library is ideal *)

Lemma readNumeral_numeral (p : positive) : Symbolic.readNumeral (Symbolic.numeral p) = Some p.
Proof. induction p as [q IH|q IH|]; simpl; rewrite ?IH; reflexivity. Qed.

#[export] Instance symbolic_laws : Eip712Laws Symbolic.eip712.
Proof.
  split.
  - intros k d. simpl. unfold Symbolic.recover, Symbolic.sign.
    rewrite readNumeral_numeral, decode_encode.
    destruct (decide _) as [_|Hn]; [reflexivity | contradiction].
  - intros d1 d2 s a1 a2. simpl. unfold Symbolic.recover.
    destruct (Symbolic.readNumeral s) as [p|]; [|discriminate].
    destruct (decode p) as [[k d']|]; [|discriminate].
    repeat destruct (decide _); try discriminate.
    congruence.
  - intros c1 c2 v1 v2 h. simpl. unfold Symbolic.hash. simpl.
    intros H1 H2. rewrite <- H2 in H1. clear H2.
    injection H1 as Hc Ht Ha He Hn Hs Hd.
    unfold sameTypedData. auto 10.
Qed.

(** ** Signing and verification *)

Section Permit2Facts.
Context {E : Eip712}.

(** Both functions hash [typedValue]. *)
Lemma generatePermit2Signature_hashes (signer : signingKey) (p : Permit2Permit) (c : Z) :
  generatePermit2Signature signer p c =
  match TypedDataEncoder_hash (getPermit2Domain c) getPermit2Types (typedValue p) with
  | inl e => inl e
  | inr d => inr (signingKey_sign signer d)
  end.
Proof.
  unfold generatePermit2Signature, typedValue.
  rewrite maxUint160_hex, maxUint48_hex, !clamp_min. reflexivity.
Qed.

Lemma verifyPermit2Signature_hashes (p : Permit2Permit) (sig : string) (c : Z) (o : string) :
  verifyPermit2Signature p sig c o =
  match TypedDataEncoder_hash (getPermit2Domain c) getPermit2Types (typedValue p) with
  | inl _ => false
  | inr d =>
      match recoverAddress d sig with
      | inl _ => false
      | inr a => String.eqb (JsString.toLowerCase a) (JsString.toLowerCase o)
      end
  end.
Proof.
  unfold verifyPermit2Signature, typedValue.
  rewrite maxUint160_hex, maxUint48_hex, !clamp_min. reflexivity.
Qed.

(** An expired permit does not pass, unless the signature is "dummy". *)
Lemma expired_is_rejected (now : Z) (fromAddress : string) (amount : Z)
    (signature : string) (permit : Permit2Permit) (chainId : option Z) :
  signature <> "dummy" ->
  deadline permit < now / 1000 ->
  verifyUserAuthorization now fromAddress amount signature (Some permit) chainId = false.
Proof.
  intros Hsig Hexp. unfold verifyUserAuthorization.
  apply String.eqb_neq in Hsig. rewrite Hsig.
  destruct chainId as [[|c|c]|]; try reflexivity;
    repeat (destruct (negb _); [reflexivity|]);
    apply Z.ltb_lt in Hexp; rewrite Hexp; reflexivity.
Qed.

Context {L : Eip712Laws E}.

(** A signature that verifies for the signer's address was made over the
    same chain id and the same hashed value. *)
Lemma verified_same_data (signer : signingKey) (p p' : Permit2Permit) (c c' : Z)
    (sig o : string) :
  generatePermit2Signature signer p c = inr sig ->
  JsString.toLowerCase o = JsString.toLowerCase (wallet_address signer) ->
  verifyPermit2Signature p' sig c' o = true ->
  c' = c /\ sameTypedData (typedValue p') (typedValue p).
Proof.
  rewrite generatePermit2Signature_hashes, verifyPermit2Signature_hashes.
  destruct (TypedDataEncoder_hash (getPermit2Domain c) _ (typedValue p)) as [|h] eqn:Hh;
    [discriminate|].
  intros Hsig Ho. injection Hsig as <-.
  destruct (TypedDataEncoder_hash (getPermit2Domain c') _ (typedValue p')) as [|h'] eqn:Hh';
    [discriminate|].
  destruct (recoverAddress h' _) as [|a] eqn:Hr; [discriminate|].
  intros Heq. apply String.eqb_eq in Heq.
  assert (h' = h) as ->.
  { eapply recover_binds_digest; [exact Hr | apply recover_sign | congruence]. }
  eapply hash_separates; eassumption.
Qed.

Lemma signature_verifies (signer : signingKey) (p : Permit2Permit) (c : Z) (sig : string) :
  generatePermit2Signature signer p c = inr sig ->
  forall p' o,
    typedValue p' = typedValue p ->
    JsString.toLowerCase o = JsString.toLowerCase (wallet_address signer) ->
    verifyPermit2Signature p' sig c o = true.
Proof.
  rewrite generatePermit2Signature_hashes.
  destruct (TypedDataEncoder_hash (getPermit2Domain c) _ (typedValue p)) as [|h] eqn:Hh;
    [discriminate|].
  intros Hsig p' o Hp Ho. injection Hsig as <-.
  rewrite verifyPermit2Signature_hashes, Hp, Hh, recover_sign.
  apply String.eqb_eq. congruence.
Qed.

End Permit2Facts.

(** C1 (as amended).  A signature that [generatePermit2Signature] makes with
    the key of owner O for permit p and chain id c verifies for (p, c, O).
    Under the ideal signing library it verifies for no expected owner that
    differs from O beyond letter case, for no other chain id, and for no
    permit whose deadline, spender, token (beyond letter case), value
    (beyond the 160-bit clamp) or nonce (beyond the 48-bit clamp) differs.
    The permit's [owner] field is not part of what is signed. *)
Theorem permit2_signature_binds_signed_fields
    {E : Eip712} {L : Eip712Laws E}
    (signer : signingKey) (p : Permit2Permit) (c : Z) (sig : string) :
  generatePermit2Signature signer p c = inr sig ->
  verifyPermit2Signature p sig c (wallet_address signer) = true
  /\ (forall o,
        JsString.toLowerCase o <> JsString.toLowerCase (wallet_address signer) ->
        verifyPermit2Signature p sig c o = false)
  /\ (forall c',
        c' <> c ->
        verifyPermit2Signature p sig c' (wallet_address signer) = false)
  /\ (forall p',
        deadline p' <> deadline p
        \/ JsString.toLowerCase (spender p') <> JsString.toLowerCase (spender p)
        \/ JsString.toLowerCase (token p') <> JsString.toLowerCase (token p)
        \/ Z.min (value p') maxUint160 <> Z.min (value p) maxUint160
        \/ Z.min (nonce p') maxUint48 <> Z.min (nonce p) maxUint48 ->
        verifyPermit2Signature p' sig c (wallet_address signer) = false).
Proof.
  intros Hsig. repeat split.
  - eapply signature_verifies; eauto.
  - intros o Ho.
    pose proof Hsig as Hs. rewrite generatePermit2Signature_hashes in Hs.
    rewrite verifyPermit2Signature_hashes.
    destruct (TypedDataEncoder_hash _ _ _) as [|h]; [reflexivity|].
    injection Hs as <-. rewrite recover_sign.
    apply String.eqb_neq. congruence.
  - intros c' Hc.
    destruct (verifyPermit2Signature p sig c' _) eqn:Hv; [|reflexivity].
    apply (verified_same_data signer p p c c') in Hv; auto. tauto.
  - intros p' Hp.
    destruct (verifyPermit2Signature p' sig c _) eqn:Hv; [|reflexivity].
    apply (verified_same_data signer p p' c c) in Hv; auto.
    destruct Hv as [_ (Ht & Ha & He & Hn & Hs & Hd)]. simpl in *. tauto.
Qed.

Lemma permit2_signature_binds_signed_fields_witness :
  exists sig,
    generatePermit2Signature (E := Symbolic.eip712) alice examplePermit 84532 = inr sig
    /\ verifyPermit2Signature (E := Symbolic.eip712) examplePermit sig 84532 alice = true
    /\ verifyPermit2Signature (E := Symbolic.eip712) examplePermit sig 84532 mallory = false
    /\ verifyPermit2Signature (E := Symbolic.eip712) examplePermit sig 1 alice = false.
Proof.
  eexists. split; [reflexivity|].
  destruct (permit2_signature_binds_signed_fields
              (E := Symbolic.eip712) alice examplePermit 84532 _ eq_refl)
    as (Hok & Howner & Hchain & _).
  split; [exact Hok|]. split.
  - apply Howner. vm_compute. discriminate.
  - apply Hchain. lia.
Defined.

(** C1 as stated fails: a permit whose [owner] field was rewritten, and a
    permit whose over-range [value] was changed, still verify under the
    signature made for the original. *)
Lemma mutated_permit_still_verifies :
  (exists sig,
     generatePermit2Signature (E := Symbolic.eip712) alice examplePermit 84532 = inr sig
     /\ owner reownedPermit <> owner examplePermit
     /\ verifyPermit2Signature (E := Symbolic.eip712) reownedPermit sig 84532 alice = true)
  /\ (exists sig,
        generatePermit2Signature (E := Symbolic.eip712) alice (hugePermit (2 ^ 160)) 84532 = inr sig
        /\ value (hugePermit (2 ^ 161)) <> value (hugePermit (2 ^ 160))
        /\ verifyPermit2Signature (E := Symbolic.eip712) (hugePermit (2 ^ 161)) sig 84532 alice = true).
Proof.
  split; eexists; (split; [reflexivity|]); (split; [discriminate|]); vm_compute; reflexivity.
Qed.

(** ** The authorization verifier *)

(** C3 (as amended).  Unless the signature is the bypass token "dummy", a
    supplied permit whose deadline is earlier than the current time (in
    seconds) is rejected, whatever the signature. *)
Theorem expired_permit_rejected {E : Eip712}
    (now : Z) (fromAddress : string) (amount : Z) (signature : string)
    (permit : Permit2Permit) (chainId : option Z) :
  signature <> "dummy" ->
  deadline permit < now / 1000 ->
  verifyUserAuthorization now fromAddress amount signature (Some permit) chainId = false.
Proof. apply expired_is_rejected. Qed.

Lemma expired_permit_rejected_witness :
  exists sig,
    generatePermit2Signature (E := Symbolic.eip712) alice examplePermit 84532 = inr sig
    /\ verifyUserAuthorization (E := Symbolic.eip712)
         afterDeadline alice 200000 sig (Some examplePermit) (Some 84532) = false.
Proof.
  eexists. split; [reflexivity|].
  apply (expired_permit_rejected (E := Symbolic.eip712)).
  - apply String.eqb_neq. vm_compute. reflexivity.
  - vm_compute. reflexivity.
Defined.

(** C3 as stated fails: with the bypass token an expired permit is
    accepted. *)
Lemma expired_permit_accepted_with_bypass :
  deadline examplePermit < afterDeadline / 1000
  /\ verifyUserAuthorization (E := Symbolic.eip712)
       afterDeadline alice 200000 "dummy" (Some examplePermit) (Some 84532) = true.
Proof. split; reflexivity. Qed.

(** C4 (as amended).  The verifier accepts every input, whatever the owner,
    amount, permit, chain id and time, exactly when the signature is the
    literal "dummy". *)
Theorem bypass_token_is_dummy {E : Eip712} (signature : string) :
  (forall now fromAddress amount permitData chainId,
      verifyUserAuthorization now fromAddress amount signature permitData chainId = true)
  <-> signature = "dummy".
Proof.
  split.
  - intros H. specialize (H 0 "" 0 None None). unfold verifyUserAuthorization in H.
    destruct (String.eqb_spec signature "dummy"); [assumption | discriminate].
  - intros -> now fromAddress amount permitData chainId. reflexivity.
Qed.

(** C4 as stated fails: the signature "unauthenticated" is not accepted
    unconditionally, and "dummy", which is another string, is. *)
Lemma unauthenticated_is_not_the_bypass_token :
  verifyUserAuthorization (E := Symbolic.eip712)
    beforeDeadline alice 200000 "unauthenticated" (Some examplePermit) (Some 84532) = false
  /\ verifyUserAuthorization (E := Symbolic.eip712)
       beforeDeadline alice 200000 "unauthenticated" None None = false
  /\ verifyUserAuthorization (E := Symbolic.eip712)
       beforeDeadline alice 200000 "dummy" None None = true.
Proof. repeat split; vm_compute; reflexivity. Qed.

(** C5.  What is signed and what is verified is [typedValue permit]: its
    amount is the permit's value clamped to 2^160-1, its expiration the
    deadline clamped to 2^48-1, its nonce the nonce clamped to 2^48-1, and
    its signature deadline the deadline as it is.  Both functions only read
    the permit.  [createPermit] stores the value and the nonce it is given. *)
Theorem clamping_only_in_signed_value {E : Eip712}
    (signer : signingKey) (permit : Permit2Permit) (c : Z) (sig expectedOwner : string)
    (now : Z) (o s t : string) (v n offset : Z) :
  generatePermit2Signature signer permit c =
    match TypedDataEncoder_hash (getPermit2Domain c) getPermit2Types (typedValue permit) with
    | inl e => inl e
    | inr d => inr (signingKey_sign signer d)
    end
  /\ verifyPermit2Signature permit sig c expectedOwner =
       match TypedDataEncoder_hash (getPermit2Domain c) getPermit2Types (typedValue permit) with
       | inl _ => false
       | inr d =>
           match recoverAddress d sig with
           | inl _ => false
           | inr a => String.eqb (JsString.toLowerCase a) (JsString.toLowerCase expectedOwner)
           end
       end
  /\ (value permit > 2 ^ 160 - 1 -> d_amount (details (typedValue permit)) = 2 ^ 160 - 1)
  /\ (nonce permit > 2 ^ 48 - 1 -> d_nonce (details (typedValue permit)) = 2 ^ 48 - 1)
  /\ (deadline permit > 2 ^ 48 - 1 -> d_expiration (details (typedValue permit)) = 2 ^ 48 - 1)
  /\ (value permit <= 2 ^ 160 - 1 -> d_amount (details (typedValue permit)) = value permit)
  /\ (nonce permit <= 2 ^ 48 - 1 -> d_nonce (details (typedValue permit)) = nonce permit)
  /\ (deadline permit <= 2 ^ 48 - 1 -> d_expiration (details (typedValue permit)) = deadline permit)
  /\ sigDeadline (typedValue permit) = deadline permit
  /\ value (createPermit now o s t v n offset) = v
  /\ nonce (createPermit now o s t v n offset) = n.
Proof.
  split; [apply generatePermit2Signature_hashes|].
  split; [apply verifyPermit2Signature_hashes|].
  unfold typedValue, maxUint160, maxUint48; simpl.
  repeat split; intros; lia.
Qed.

(** C10.  With a permit supplied and a chain id present, the verifier
    compares the permit's owner (without regard to letter case), value and
    deadline with the transfer and nothing else: a permit that passes these
    and whose signature verifies is accepted, whatever spender and token it
    names. *)
Theorem spender_and_token_not_compared {E : Eip712}
    (now : Z) (fromAddress : string) (amount : Z) (signature : string)
    (permit : Permit2Permit) (chainId : Z) :
  chainId <> 0 ->
  JsString.toLowerCase (owner permit) = JsString.toLowerCase fromAddress ->
  value permit = amount ->
  now / 1000 <= deadline permit ->
  verifyPermit2Signature permit signature chainId fromAddress = true ->
  verifyUserAuthorization now fromAddress amount signature (Some permit) (Some chainId) = true.
Proof.
  intros Hc Ho Hv Hd Hsig. unfold verifyUserAuthorization.
  destruct (String.eqb signature "dummy"); [reflexivity|].
  apply String.eqb_eq in Ho. apply Z.eqb_eq in Hv.
  assert ((deadline permit <? now / 1000) = false) as Hd' by (apply Z.ltb_ge; lia).
  destruct chainId; [contradiction| |]; rewrite Ho, Hv, Hd'; exact Hsig.
Qed.

Lemma spender_and_token_not_compared_witness :
  exists sig,
    generatePermit2Signature (E := Symbolic.eip712) alice strangePermit 84532 = inr sig
    /\ spender strangePermit <> getPermit2Address
    /\ token strangePermit <> BASE_SEPOLIA_USDC
    /\ verifyUserAuthorization (E := Symbolic.eip712)
         beforeDeadline alice 200000 sig (Some strangePermit) (Some 84532) = true.
Proof.
  eexists. split; [reflexivity|].
  split; [discriminate|]. split; [discriminate|].
  apply (spender_and_token_not_compared (E := Symbolic.eip712)).
  - lia.
  - reflexivity.
  - reflexivity.
  - vm_compute. discriminate.
  - vm_compute. reflexivity.
Defined.

(** ** Amounts *)

(** C7 (code defect).  The conversion goes through binary64: "4.1" parses
    to the double just below 4.1, the product with 1000000 rounds to
    4099999.9999999995, and [Math.floor] leaves 4099999, one unit short of
    the exact 4100000.  The document's own examples convert exactly. *)
Theorem smallest_unit_conversion_loses_a_unit :
  toSmallestUnits "4.1" = inr 4099999
  /\ exactSmallestUnits "4.1" = Some 4100000
  /\ toSmallestUnits "1.0" = inr 1000000
  /\ toSmallestUnits "0.2" = inr 200000.
Proof. repeat split; vm_compute; reflexivity. Qed.



(** ** The transfer *)

Section TransferFacts.
Import DelegatedRevision.
Context {E : Eip712}.


(** Destructs the scrutinee of some [match] or [if] of the goal. *)
Ltac case_scrutinee :=
  match goal with
  | |- context [match ?x with _ => _ end] =>
      lazymatch x with
      | context [match _ with _ => _ end] => fail
      | _ => destruct x eqn:?
      end
  end.




End TransferFacts.




(** ** Thrown values of any kind *)

Section AnyThrowFacts.
Context {E : Eip712}.


Ltac split_goal :=
  match goal with
  | |- context [match ?x with _ => _ end] =>
      lazymatch x with
      | context [match _ with _ => _ end] => fail
      | _ => destruct x eqn:?
      end
  end.

Ltac use_answers :=
  repeat match goal with
         | H : ?x = _ |- context [?x] => rewrite H
         end.


(** When the collaborators throw [Error] objects only, nothing escapes, and
    the result and the chain calls are those of the first embedding. *)
Lemma errors_only_agree (w : DelegatedRevision.World)
    (request : DelegatedRevision.CctpTransferRequest) :
  fst (AnyThrow.transferUsdcViaCctp (AnyThrow.ofWorld w) request)
  = AnyThrow.Returned (fst (DelegatedRevision.transferUsdcViaCctp w request))
  /\ AnyThrow.callsOf (snd (AnyThrow.transferUsdcViaCctp (AnyThrow.ofWorld w) request))
     = snd (DelegatedRevision.transferUsdcViaCctp w request).
Proof.
  unfold AnyThrow.transferUsdcViaCctp, AnyThrow.transferBody, AnyThrow.catchBlock,
    AnyThrow.messageOf, AnyThrow.readMessage, AnyThrow.bind, AnyThrow.step, AnyThrow.throw,
    AnyThrow.tryCatch, AnyThrow.ret, AnyThrow.ofWorld, AnyThrow.ofResult,
    DelegatedRevision.transferUsdcViaCctp, DelegatedRevision.transferBody,
    bind, call, lift, tryCatch, throw, ret.
  cbn [AnyThrow.config_networkType AnyThrow.wormhole AnyThrow.getEvmSigner
       AnyThrow.getAptosSigner AnyThrow.getChain AnyThrow.getNetwork AnyThrow.Date_now
       AnyThrow.chainAddress AnyThrow.circleTransfer AnyThrow.quoteTransfer
       AnyThrow.getTransactionCount AnyThrow.toEvmSdkSigner AnyThrow.initiateTransfer
       AnyThrow.fetchAttestation AnyThrow.toAptosSdkSigner AnyThrow.completeTransfer].
  repeat (simpl; split_goal); simpl; split;
    first [reflexivity | unfold messageOrString; use_answers; reflexivity].
Qed.

End AnyThrowFacts.




(** The direct-mode scenario of the design document: amount "1.0". *)
Example direct_transfer_succeeds :
  DelegatedRevision.transferUsdcViaCctp (E := Symbolic.eip712)
    (friendlyWorld beforeDeadline) (directRequest "1.0")
  = ({| success := true;
        sourceTx := Some "0xsourcetx";
        attestationId := Some "0xattestation";
        destinationTx := Some "0xdestinationtx";
        error := None |},
     [ CallCircleTransfer 1000000 "0x70997970C51812dc3A010C7d01b50e0d17dc79C8"
         "0xc3e2a21da9f68dcd3ad8668c8fb72ede9f46fea67652fbffa9db8f8af0c612cf";
       CallQuoteTransfer; CallGetTransactionCount; CallInitiateTransfer;
       CallFetchAttestation 180000; CallCompleteTransfer ]).
Proof. vm_compute. reflexivity. Qed.




(** ** The polling loop *)

Section PollingFacts.
Import PollingRevision.

Lemma backoff_7 : backoff 7 = JsNumber.ofZ 30000.
Proof. vm_compute. reflexivity. Qed.

Lemma nextDelay_capped : nextDelay (JsNumber.ofZ 30000) = JsNumber.ofZ 30000.
Proof. vm_compute. reflexivity. Qed.

Lemma backoff_stays (k : nat) :
  backoff k = JsNumber.ofZ 30000 -> backoff (S k) = JsNumber.ofZ 30000.
Proof. intros IH. cbn [backoff]. rewrite IH. exact nextDelay_capped. Qed.

Lemma backoff_capped (k : nat) : backoff (7 + k) = JsNumber.ofZ 30000.
Proof.
  induction k as [|k IH].
  - exact backoff_7.
  - replace (7 + S k)%nat with (S (7 + k)) by lia.
    apply backoff_stays, IH.
Qed.

Lemma backoff_in_table (n : nat) : backoff n = nth n backoffTable (JsNumber.ofZ 30000).
Proof.
  do 7 (destruct n as [|n]; [vm_compute; reflexivity|]).
  change (backoff (7 + n) = nth (7 + n) backoffTable (JsNumber.ofZ 30000)).
  rewrite (backoff_capped n).
  destruct n as [|n]; [reflexivity|]. destruct n; reflexivity.
Qed.

Lemma backoff_at_most_30000 (n : nat) : SFleb (backoff n) (JsNumber.ofZ 30000) = true.
Proof.
  do 7 (destruct n as [|n]; [vm_compute; reflexivity|]).
  change (SFleb (backoff (7 + n)) (JsNumber.ofZ 30000) = true).
  rewrite (backoff_capped n). vm_compute. reflexivity.
Qed.

Lemma backoff_trunc_nonneg (n : nat) : 0 <= JsNumber.truncToZ (backoff n).
Proof.
  do 7 (destruct n as [|n]; [vm_compute; discriminate|]).
  change (0 <= JsNumber.truncToZ (backoff (7 + n))).
  rewrite (backoff_capped n). vm_compute. discriminate.
Qed.

Lemma sleeps_snoc_sleep l d : sleeps (l ++ [Sleep d]) = (sleeps l ++ [d])%list.
Proof. unfold sleeps. rewrite omap_app. reflexivity. Qed.

Lemma sleeps_snoc_fetch l t : sleeps (l ++ [Fetch t]) = sleeps l.
Proof. unfold sleeps. rewrite omap_app. simpl. apply app_nil_r. Qed.

Lemma fetchStarts_snoc_sleep l d : fetchStarts (l ++ [Sleep d]) = fetchStarts l.
Proof. unfold fetchStarts. rewrite omap_app. simpl. apply app_nil_r. Qed.

Lemma fetchStarts_snoc_fetch l t : fetchStarts (l ++ [Fetch t]) = (fetchStarts l ++ [t])%list.
Proof. unfold fetchStarts. rewrite omap_app. reflexivity. Qed.

Lemma pollLoop_invariant (attempts : nat -> Attempt) (startTime : Z) (fuel : nat) :
  forall st k r st',
    loopInvariant st k ->
    pollLoop fuel attempts startTime st = Some (r, st') ->
    (exists k', loopInvariant st' k')
    /\ (forall e, r = inl e ->
          maxTimeout <= clock st' - startTime
          \/ exists i, fetch_answer (attempts i) = inl e).
Proof.
  induction fuel as [|fuel IH]; intros st k r st' (Hd & Hs & Hf) Hrun; [discriminate|].
  cbn [pollLoop] in Hrun.
  destruct (Z.ltb_spec (clock st - startTime) maxTimeout) as [Hlt|Hge].
  - destruct (fetch_answer (attempts (attempt st))) as [err|ids] eqn:Hans.
    + cbn [clock delay attestationIds attempt log] in Hrun.
      destruct (Z.leb_spec (maxTimeout - (clock st + fetch_ms (attempts (attempt st)) - startTime)) 0)
        as [Hrem|Hrem].
      * injection Hrun as <- <-. split.
        -- exists k. repeat split; cbn [delay log]; auto.
           ++ rewrite sleeps_snoc_fetch. exact Hs.
           ++ rewrite fetchStarts_snoc_fetch. apply Forall_app. split; [exact Hf|].
              constructor; [exact Hlt | constructor].
        -- intros e _. left. cbn [clock]. lia.
      * destruct (notReadyYet err).
        -- eapply (IH _ (S k)); [|exact Hrun].
           repeat split; cbn [delay log].
           ++ rewrite Hd. reflexivity.
           ++ rewrite sleeps_snoc_sleep, sleeps_snoc_fetch, Hs, Hd, seq_S, map_app.
              reflexivity.
           ++ rewrite fetchStarts_snoc_sleep, fetchStarts_snoc_fetch. apply Forall_app.
              split; [exact Hf|]. constructor; [exact Hlt | constructor].
        -- injection Hrun as <- <-. split.
           ++ exists k. repeat split; cbn [delay log]; auto.
              ** rewrite sleeps_snoc_fetch. exact Hs.
              ** rewrite fetchStarts_snoc_fetch. apply Forall_app. split; [exact Hf|].
                 constructor; [exact Hlt | constructor].
           ++ intros e He. injection He as <-. right. eauto.
    + cbn [clock delay attestationIds attempt log] in Hrun.
      assert (loopInvariant
                {| clock := clock st + fetch_ms (attempts (attempt st));
                   delay := delay st; attestationIds := ids;
                   attempt := S (attempt st);
                   log := (log st ++ [Fetch (clock st - startTime)])%list |} k) as Hinv.
      { repeat split; cbn [delay log]; auto.
        - rewrite sleeps_snoc_fetch. exact Hs.
        - rewrite fetchStarts_snoc_fetch. apply Forall_app. split; [exact Hf|].
          constructor; [exact Hlt | constructor]. }
      destruct (received ids).
      * injection Hrun as <- <-. split; [eauto|]. intros e He. discriminate.
      * eapply IH; eassumption.
  - destruct (received (attestationIds st)); injection Hrun as <- <-.
    + split; [exists k; repeat split; assumption|]. intros e He. discriminate.
    + split; [exists k; repeat split; assumption|]. intros e _. left. lia.
Qed.

Lemma initial_invariant (startTime : Z) : loopInvariant (initialState startTime) 0.
Proof. repeat split. constructor. Qed.

(** When every attempt takes at least a millisecond and no timer fires
    early, the loop ends: more iterations than the deadline has
    milliseconds are never needed. *)
Lemma pollLoop_terminates (attempts : nat -> Attempt) (startTime : Z) :
  (forall i, 1 <= fetch_ms (attempts i)) ->
  (forall i, 0 <= timer_lag (attempts i)) ->
  forall fuel st,
    (exists k, delay st = backoff k) ->
    Z.max 0 (maxTimeout - (clock st - startTime)) < Z.of_nat fuel ->
    exists res, pollLoop fuel attempts startTime st = Some res.
Proof.
  intros Hms Hlag. induction fuel as [|fuel IH]; intros st [k Hk] Hfuel; [lia|].
  cbn [pollLoop].
  destruct (Z.ltb_spec (clock st - startTime) maxTimeout) as [Hlt|Hge].
  - specialize (Hms (attempt st)). specialize (Hlag (attempt st)).
    destruct (fetch_answer (attempts (attempt st))) as [err|ids].
    + cbn [clock delay attestationIds attempt log].
      destruct (_ <=? 0); [eauto|].
      destruct (notReadyYet err); [|eauto].
      apply IH; cbn [clock delay].
      * exists (S k). rewrite Hk. reflexivity.
      * pose proof (backoff_trunc_nonneg k) as Ht. rewrite <- Hk in Ht. lia.
    + destruct (received ids); [eauto|].
      apply IH; cbn [clock delay]; [eauto | lia].
  - destruct (received (attestationIds st)); eauto.
Qed.

End PollingFacts.

(** C9 (as amended).  In the polling loop the delays slept are, in order,
    2000 ms and then 1.5 times the previous delay, capped at 30000 ms:
    2000, 3000, 4500, 6750, 10125, 15187.5, 22781.25, 30000, 30000, ...
    No attempt starts once 180000 ms have elapsed, and the loop's own
    timeout error is raised only once at least 180000 ms have elapsed; the
    time spent by then can be more than 180000 ms, by the last attempt and
    the last sleep. *)
Theorem polling_backoff_and_deadline
    (attempts : nat -> PollingRevision.Attempt) (startTime : Z) (fuel : nat)
    (r : Result (list string)) (st : PollingRevision.PollState) :
  PollingRevision.pollAttestation fuel attempts startTime = Some (r, st) ->
  PollingRevision.sleeps (PollingRevision.log st)
  = map PollingRevision.backoff
      (seq 0 (length (PollingRevision.sleeps (PollingRevision.log st))))
  /\ PollingRevision.backoff 0 = JsNumber.ofZ 2000
  /\ (forall n,
        PollingRevision.backoff (S n)
        = JsNumber.Math_min
            (JsNumber.mul (PollingRevision.backoff n) PollingRevision.onePointFive)
            (JsNumber.ofZ 30000))
  /\ (forall n, PollingRevision.backoff n = nth n backoffTable (JsNumber.ofZ 30000))
  /\ (forall n, SFleb (PollingRevision.backoff n) (JsNumber.ofZ 30000) = true)
  /\ Forall (fun t => t < 180000) (PollingRevision.fetchStarts (PollingRevision.log st))
  /\ (forall e,
        r = inl e ->
        180000 <= PollingRevision.clock st - startTime
        \/ exists i, PollingRevision.fetch_answer (attempts i) = inl e).
Proof.
  intros Hrun.
  destruct (pollLoop_invariant attempts startTime fuel _ 0 r st
              (initial_invariant startTime) Hrun) as ([k (Hd & Hs & Hf)] & Hout).
  split.
  { rewrite Hs at 2. rewrite length_map, length_seq. exact Hs. }
  split; [reflexivity|].
  split; [reflexivity|].
  split; [exact backoff_in_table|].
  split; [exact backoff_at_most_30000|].
  split; [exact Hf | exact Hout].
Qed.

Lemma polling_backoff_and_deadline_witness :
  exists r st,
    PollingRevision.pollAttestation 100 slowService 1000000 = Some (r, st)
    /\ map JsNumber.truncToZ (PollingRevision.sleeps (PollingRevision.log st))
       = [2000; 3000; 4500; 6750; 10125; 15187; 22781; 30000]
    /\ Forall (fun t => t < 180000) (PollingRevision.fetchStarts (PollingRevision.log st)).
Proof.
  eexists. eexists. split; [vm_compute; reflexivity|].
  split; [vm_compute; reflexivity|].
  refine (proj1 (proj2 (proj2 (proj2 (proj2 (proj2
            (polling_backoff_and_deadline slowService 1000000 100 _ _ _))))))).
  vm_compute. reflexivity.
Defined.

(** C9 as stated fails: against a service that answers "timeout" after ten
    seconds each time, the loop raises its timeout error 184343 ms after it
    started. *)
Lemma polling_overruns_the_deadline :
  exists st,
    PollingRevision.pollAttestation 100 slowService 1000000
    = Some (inl (newError
                   ("Attestation not received after 180 seconds. " ++
                    "This can happen if Circle's attestation service is slow. " ++
                    "Please check the transaction on Base Sepolia explorer and try again later.")),
            st)
    /\ PollingRevision.clock st - 1000000 = 184343
    /\ PollingRevision.fetchStarts (PollingRevision.log st)
       = [0; 12000; 25000; 39500; 56250; 76375; 101562; 134343; 174343].
Proof.
  eexists. split; [vm_compute; reflexivity|].
  split; vm_compute; reflexivity.
Qed.

(** * Further properties of the code *)

(** ** Authorization, end to end *)

Section AuthorizationFacts.
Context {E : Eip712} {L : Eip712Laws E}.

Lemma not_dummy (s : string) : s <> "dummy" -> String.eqb s "dummy" = false.
Proof. apply String.eqb_neq. Qed.

(** What an accepted, non-bypass authorization with a supplied permit says. *)
Lemma accepted_with_permit (now : Z) (from : string) (amount : Z) (sig : string)
    (p : Permit2Permit) (chain : option Z) :
  sig <> "dummy" ->
  verifyUserAuthorization now from amount sig (Some p) chain = true ->
  exists c, chain = Some c /\ c <> 0
    /\ JsString.toLowerCase (owner p) = JsString.toLowerCase from
    /\ value p = amount
    /\ now / 1000 <= deadline p
    /\ verifyPermit2Signature p sig c from = true.
Proof.
  intros Hs. unfold verifyUserAuthorization. rewrite (not_dummy _ Hs).
  destruct chain as [c|]; [|discriminate].
  destruct (String.eqb_spec (JsString.toLowerCase (owner p)) (JsString.toLowerCase from)) as [Ho|Ho];
    destruct (Z.eqb_spec (value p) amount) as [Hv|Hv];
    destruct (Z.ltb_spec (deadline p) (now / 1000)) as [Hd|Hd];
    destruct c; simpl; try discriminate; intros Hok.
  all: eexists; repeat split; eauto; discriminate.
Qed.

Lemma accepted_without_permit (now : Z) (from : string) (amount : Z) (sig : string)
    (chain : option Z) :
  sig <> "dummy" ->
  verifyUserAuthorization now from amount sig None chain = true ->
  exists c, chain = Some c /\ c <> 0
    /\ verifyPermit2Signature
         (createPermit now from getPermit2Address BASE_SEPOLIA_USDC amount 0 3600) sig c from = true.
Proof.
  intros Hs. unfold verifyUserAuthorization. rewrite (not_dummy _ Hs).
  destruct chain as [[|c|c]|]; try discriminate; intros Hok; eexists; repeat split; eauto; discriminate.
Qed.

(** X1.  A permit made by [createPermit] for the signer's own address and signed
    by [generatePermit2Signature] authorizes a transfer of its value from
    that address on the chain it was signed for, until its deadline. *)
Theorem signed_permit_authorizes
    (signer : signingKey) (issued now : Z) (spender token : string)
    (value nonce offset chain : Z) (sig from : string) :
  generatePermit2Signature signer
    (createPermit issued (wallet_address signer) spender token value nonce offset) chain = inr sig ->
  chain <> 0 ->
  JsString.toLowerCase from = JsString.toLowerCase (wallet_address signer) ->
  now / 1000 <= issued / 1000 + offset ->
  verifyUserAuthorization now from value sig
    (Some (createPermit issued (wallet_address signer) spender token value nonce offset))
    (Some chain) = true.
Proof.
  intros Hsig Hc Hfrom Hd.
  pose proof (signature_verifies signer _ chain sig Hsig _ from eq_refl Hfrom) as Hv.
  unfold verifyUserAuthorization.
  destruct (String.eqb sig "dummy"); [reflexivity|].
  cbn [owner Row.value deadline createPermit].
  rewrite Hfrom, String.eqb_refl, Z.eqb_refl. cbn [negb].
  assert ((issued / 1000 + offset <? now / 1000) = false) as -> by (apply Z.ltb_ge; lia).
  destruct chain; [contradiction| |]; exact Hv.
Qed.

(** X2.  Whatever permit data accompanies it, a signature accepted for a transfer
    from the signer's address fixes the chain, the amount (up to the 160-bit
    clamp), the deadline, the nonce (up to the 48-bit clamp), the spender
    and the token to what was signed, and the deadline has not passed. *)
Theorem accepted_transfer_matches_signed_permit
    (signer : signingKey) (signed shown : Permit2Permit) (chain chain' : Z)
    (sig from : string) (now amount : Z) :
  generatePermit2Signature signer signed chain = inr sig ->
  sig <> "dummy" ->
  JsString.toLowerCase from = JsString.toLowerCase (wallet_address signer) ->
  verifyUserAuthorization now from amount sig (Some shown) (Some chain') = true ->
  chain' = chain
  /\ Z.min amount maxUint160 = Z.min (value signed) maxUint160
  /\ deadline shown = deadline signed
  /\ now / 1000 <= deadline signed
  /\ Z.min (nonce shown) maxUint48 = Z.min (nonce signed) maxUint48
  /\ JsString.toLowerCase (spender shown) = JsString.toLowerCase (spender signed)
  /\ JsString.toLowerCase (token shown) = JsString.toLowerCase (token signed).
Proof.
  intros Hsig Hnd Hfrom Hok.
  destruct (accepted_with_permit _ _ _ _ _ _ Hnd Hok) as (c & Hc & Hc0 & Ho & Hv & Hd & Hver).
  injection Hc as <-.
  destruct (verified_same_data signer signed shown chain chain' sig from Hsig Hfrom Hver)
    as (-> & Ht & Ha & He & Hn & Hs & Hdl).
  cbn in Ht, Ha, He, Hn, Hs, Hdl. subst amount.
  repeat split; auto; lia.
Qed.

(** X3.  The same permit and chain, but a transfer from an address that is not
    the signer's: rejected. *)
Theorem other_signer_rejected
    (signer : signingKey) (p : Permit2Permit) (chain : Z)
    (sig from : string) (now amount : Z) :
  generatePermit2Signature signer p chain = inr sig ->
  sig <> "dummy" ->
  JsString.toLowerCase from <> JsString.toLowerCase (wallet_address signer) ->
  verifyUserAuthorization now from amount sig (Some p) (Some chain) = false.
Proof.
  intros Hsig Hnd Hfrom.
  destruct (verifyUserAuthorization now from amount sig (Some p) (Some chain)) eqn:Hok;
    [|reflexivity].
  destruct (accepted_with_permit _ _ _ _ _ _ Hnd Hok) as (c & Hc & _ & _ & _ & _ & Hver).
  injection Hc as <-.
  rewrite generatePermit2Signature_hashes in Hsig.
  rewrite verifyPermit2Signature_hashes in Hver.
  destruct (TypedDataEncoder_hash _ _ _) as [|h]; [discriminate|].
  injection Hsig as <-. rewrite recover_sign in Hver.
  apply String.eqb_eq in Hver. congruence.
Qed.

(** X4.  Without permit data the verifier checks the signature against a permit
    it rebuilds: spender Permit2, token USDC, nonce 0, deadline this second
    plus 3600.  A signature by the sender is accepted only if it was made
    over exactly such a permit, and a permit created in the same second with
    these defaults is accepted. *)
Theorem rebuilt_permit_must_match
    (signer : signingKey) (signed : Permit2Permit) (chain chain' : Z)
    (sig from : string) (now amount : Z) :
  generatePermit2Signature signer signed chain = inr sig ->
  sig <> "dummy" ->
  JsString.toLowerCase from = JsString.toLowerCase (wallet_address signer) ->
  (verifyUserAuthorization now from amount sig None (Some chain') = true ->
     chain' = chain
     /\ deadline signed = now / 1000 + 3600
     /\ Z.min (nonce signed) maxUint48 = 0
     /\ Z.min (value signed) maxUint160 = Z.min amount maxUint160
     /\ JsString.toLowerCase (spender signed) = JsString.toLowerCase PERMIT2_ADDRESS
     /\ JsString.toLowerCase (token signed) = JsString.toLowerCase BASE_SEPOLIA_USDC)
  /\ (chain <> 0 ->
      typedValue signed
      = typedValue (createPermit now from getPermit2Address BASE_SEPOLIA_USDC amount 0 3600) ->
      verifyUserAuthorization now from amount sig None (Some chain) = true).
Proof.
  intros Hsig Hnd Hfrom. split.
  - intros Hok.
    destruct (accepted_without_permit _ _ _ _ _ Hnd Hok) as (c & Hc & _ & Hver).
    injection Hc as <-.
    destruct (verified_same_data signer signed _ chain chain' sig from Hsig Hfrom Hver)
      as (-> & Ht & Ha & He & Hn & Hs & Hdl).
    cbn in Ht, Ha, He, Hn, Hs, Hdl.
    repeat split; auto.
  - intros Hc Hsame.
    pose proof (signature_verifies signer signed chain sig Hsig _ from (eq_sym Hsame) Hfrom) as Hv.
    unfold verifyUserAuthorization. rewrite (not_dummy _ Hnd).
    destruct chain; [contradiction| |]; exact Hv.
Qed.

(** X5.  Above the 160-bit range amounts are not told apart: a signature over any
    value above 2^160-1 authorizes any other amount above 2^160-1, when the
    permit data shown carries that amount. *)
Theorem over_range_amounts_interchangeable
    (signer : signingKey) (signed : Permit2Permit) (chain : Z)
    (sig from : string) (now amount : Z) :
  generatePermit2Signature signer signed chain = inr sig ->
  chain <> 0 ->
  JsString.toLowerCase from = JsString.toLowerCase (wallet_address signer) ->
  now / 1000 <= deadline signed ->
  maxUint160 < value signed ->
  maxUint160 < amount ->
  verifyUserAuthorization now from amount sig
    (Some {| owner := from; spender := spender signed; token := token signed;
             value := amount; nonce := nonce signed; deadline := deadline signed |})
    (Some chain) = true.
Proof.
  intros Hsig Hc Hfrom Hd Hv Ha.
  assert (typedValue {| owner := from; spender := spender signed; token := token signed;
                        value := amount; nonce := nonce signed; deadline := deadline signed |}
          = typedValue signed) as Hsame.
  { unfold typedValue. cbn. f_equal. f_equal. lia. }
  pose proof (signature_verifies signer signed chain sig Hsig _ from Hsame Hfrom) as Hver.
  unfold verifyUserAuthorization.
  destruct (String.eqb sig "dummy"); [reflexivity|].
  cbn [owner Row.value deadline].
  rewrite String.eqb_refl, Z.eqb_refl. cbn [negb].
  assert ((deadline signed <? now / 1000) = false) as -> by (apply Z.ltb_ge; lia).
  destruct chain; [contradiction| |]; exact Hver.
Qed.

End AuthorizationFacts.

Lemma signed_permit_authorizes_witness :
  exists sig,
    generatePermit2Signature (E := Symbolic.eip712) alice
      (createPermit beforeDeadline alice PERMIT2_ADDRESS BASE_SEPOLIA_USDC 200000 0 3600)
      84532 = inr sig
    /\ verifyUserAuthorization (E := Symbolic.eip712) (beforeDeadline + 3600000) alice 200000 sig
         (Some (createPermit beforeDeadline alice PERMIT2_ADDRESS BASE_SEPOLIA_USDC 200000 0 3600))
         (Some 84532) = true.
Proof.
  eexists. split; [reflexivity|].
  apply (signed_permit_authorizes (E := Symbolic.eip712) (L := symbolic_laws)
           alice beforeDeadline (beforeDeadline + 3600000)
           PERMIT2_ADDRESS BASE_SEPOLIA_USDC 200000 0 3600 84532 _ alice).
  - reflexivity.
  - lia.
  - reflexivity.
  - vm_compute. discriminate.
Defined.

Lemma accepted_transfer_matches_signed_permit_witness :
  value (hugePermit (2 ^ 161)) <> value (hugePermit (2 ^ 160))
  /\ Z.min (2 ^ 161) maxUint160 = Z.min (value (hugePermit (2 ^ 160))) maxUint160
  /\ deadline (hugePermit (2 ^ 161)) = deadline (hugePermit (2 ^ 160)).
Proof.
  split; [discriminate|].
  refine ((fun H => conj (proj1 (proj2 H)) (proj1 (proj2 (proj2 H))))
            (accepted_transfer_matches_signed_permit
               (E := Symbolic.eip712) (L := symbolic_laws)
               alice (hugePermit (2 ^ 160)) (hugePermit (2 ^ 161)) 84532 84532 _ alice
               beforeDeadline (2 ^ 161) eq_refl _ _ _)).
  - apply String.eqb_neq. vm_compute. reflexivity.
  - reflexivity.
  - vm_compute. reflexivity.
Defined.

Lemma other_signer_rejected_witness :
  exists sig,
    generatePermit2Signature (E := Symbolic.eip712) alice examplePermit 84532 = inr sig
    /\ verifyUserAuthorization (E := Symbolic.eip712)
         beforeDeadline mallory 200000 sig (Some reownedPermit) (Some 84532) = false.
Proof.
  eexists. split; [reflexivity|].
  apply (other_signer_rejected (E := Symbolic.eip712) (L := symbolic_laws)
           alice reownedPermit 84532 _ mallory beforeDeadline 200000).
  - reflexivity.
  - apply String.eqb_neq. vm_compute. reflexivity.
  - vm_compute. discriminate.
Defined.

Lemma rebuilt_permit_must_match_witness :
  exists sig,
    generatePermit2Signature (E := Symbolic.eip712) alice
      (createPermit beforeDeadline alice getPermit2Address BASE_SEPOLIA_USDC 200000 0 3600)
      84532 = inr sig
    /\ verifyUserAuthorization (E := Symbolic.eip712)
         (beforeDeadline + 999) alice 200000 sig None (Some 84532) = true.
Proof.
  eexists. split; [reflexivity|].
  refine (proj2 (rebuilt_permit_must_match (E := Symbolic.eip712) (L := symbolic_laws)
                   alice
                   (createPermit beforeDeadline alice getPermit2Address BASE_SEPOLIA_USDC
                      200000 0 3600)
                   84532 84532 _ alice (beforeDeadline + 999) 200000 eq_refl _ _) _ _).
  - apply String.eqb_neq. vm_compute. reflexivity.
  - reflexivity.
  - lia.
  - vm_compute. reflexivity.
Defined.

Lemma over_range_amounts_interchangeable_witness :
  exists sig,
    generatePermit2Signature (E := Symbolic.eip712) alice (hugePermit (2 ^ 160)) 84532 = inr sig
    /\ verifyUserAuthorization (E := Symbolic.eip712) beforeDeadline alice (2 ^ 161) sig
         (Some (hugePermit (2 ^ 161))) (Some 84532) = true.
Proof.
  eexists. split; [reflexivity|].
  apply (over_range_amounts_interchangeable (E := Symbolic.eip712) (L := symbolic_laws)
           alice (hugePermit (2 ^ 160)) 84532 _ alice beforeDeadline (2 ^ 161)).
  - reflexivity.
  - lia.
  - reflexivity.
  - vm_compute. discriminate.
  - vm_compute. reflexivity.
  - vm_compute. reflexivity.
Defined.

(** ** The calls of the delegated revision *)


Section DelegatedFacts.
Import DelegatedRevision.
Context {E : Eip712}.

Ltac split_cases :=
  match goal with
  | |- context [match ?x with _ => _ end] =>
      lazymatch x with
      | context [match _ with _ => _ end] => fail
      | _ => destruct x eqn:?
      end
  end.

Ltac unfold_run :=
  unfold transferUsdcViaCctp, transferBody, bind, call, lift, tryCatch, throw, ret.

(** X6.  In the delegated revision the chain calls of every run are an initial
    part of: create the transfer, quote, read the nonce, initiate, fetch
    the attestation, complete.  A run succeeds exactly when it made them all
    and [completeTransfer] answered. *)
Theorem calls_follow_the_protocol (w : World) (request : CctpTransferRequest) :
  exists a s r,
    snd (transferUsdcViaCctp w request) `prefix_of` fullRun a s r
    /\ (success (fst (transferUsdcViaCctp w request)) = true <->
        snd (transferUsdcViaCctp w request) = fullRun a s r
        /\ exists ids, completeTransfer w = inr ids).
Proof.
  unfold_run.
  repeat (simpl; split_cases); simpl;
    first [ exists 0, "", ""; split; [apply prefix_nil | split; [discriminate | intros [? _]; discriminate]]
          | eexists _, _, _; split;
            [eexists; reflexivity
            | split; [ first [discriminate | intros _; split; [reflexivity | eauto]]
                     | first [ reflexivity | intros [? _]; discriminate
                             | intros (_ & ? & ?); congruence ] ] ] ].
Qed.


(** X8.  A run that makes a chain call at all creates the transfer first, for
    the converted amount and the recipient asked for (the sponsor's Aptos
    address when none is); the sender is the user's address only after
    [verifyUserAuthorization] accepted the signature for that address and
    amount on the chain of the network, and the sponsor's address in direct
    mode. *)
Theorem chain_calls_need_authorization (w : World) (request : CctpTransferRequest)
    (a : Z) (s r : string) (rest : list ChainCall) :
  snd (transferUsdcViaCctp w request) = CallCircleTransfer a s r :: rest ->
  toSmallestUnits (amount request) = inr a
  /\ (exists aptos, getAptosSigner w = inr aptos
                    /\ r = JsString.orElse (destAddress request) aptos)
  /\ ((exists sig c,
         fromAddress request = Some s /\ s <> ""
         /\ signature request = Some sig /\ sig <> ""
         /\ getNetwork w = inr c
         /\ verifyUserAuthorization (Date_now w) s a sig (permitData request) (Some c) = true)
      \/ (JsString.truthyOpt (fromAddress request) && JsString.truthyOpt (signature request) = false
          /\ getEvmSigner w = inr s)).
Proof.
  unfold_run.
  repeat (simpl; split_cases); simpl; try discriminate;
    intros Hcalls; injection Hcalls as <- <- <- <-;
    (split; [reflexivity|]); (split; [eauto|]);
    first [ right; split; [reflexivity|reflexivity]
          | right; split; [assumption|reflexivity]
          | left ].
  all: destruct (signature request) as [sig|] eqn:Hsg;
    [| rewrite andb_false_r in *; discriminate].
  all: cbn [default] in *; exists sig, z0.
  all: match goal with H : _ && _ = true |- _ => apply andb_true_iff in H as [Hf Hs] end.
  all: match goal with H : negb (verifyUserAuthorization _ _ _ _ _ _) = false |- _ =>
         apply negb_false_iff in H end.
  all: repeat split; try reflexivity; try assumption; intros ->; discriminate.
Qed.


End DelegatedFacts.

Lemma chain_calls_need_authorization_witness :
  toSmallestUnits (DelegatedRevision.amount (directRequest "1.5")) = inr 1500000
  /\ DelegatedRevision.getEvmSigner (friendlyWorld beforeDeadline)
     = inr "0x70997970C51812dc3A010C7d01b50e0d17dc79C8".
Proof.
  refine ((fun H => conj (proj1 H) _)
            (chain_calls_need_authorization (E := Symbolic.eip712)
               (friendlyWorld beforeDeadline) (directRequest "1.5") 1500000
               "0x70997970C51812dc3A010C7d01b50e0d17dc79C8"
               "0xc3e2a21da9f68dcd3ad8668c8fb72ede9f46fea67652fbffa9db8f8af0c612cf"
               _ _)).
  - reflexivity.
  - vm_compute. reflexivity.
Defined.


(** ** Configuration *)


Section ConfigFacts.
Import ConfigTs.

Lemma orRequired_given env o k f :
  given env o (k, f) = true ->
  exists v, orRequired (f o) (getRequiredEnv env k) = inr v /\ v <> ""
            /\ (JsString.truthyOpt (f o) = true -> f o = Some v)
            /\ (JsString.truthyOpt (f o) = false -> env !! k = Some v).
Proof.
  unfold given, orRequired, getRequiredEnv; cbn [fst snd].
  destruct (f o) as [[|c s]|]; cbn; destruct (env !! k) as [[|c' s']|]; cbn;
    try discriminate; intros _; eexists; repeat split; try discriminate; eauto.
Qed.

Lemma orRequired_missing env o k f :
  given env o (k, f) = false ->
  orRequired (f o) (getRequiredEnv env k)
  = inl (newError ("Missing required environment variable: " ++ k)).
Proof.
  unfold given, orRequired, getRequiredEnv; cbn [fst snd].
  destruct (f o) as [[|c s]|]; cbn; destruct (env !! k) as [[|c' s']|]; cbn;
    try discriminate; reflexivity.
Qed.

Lemma orRequired_source env (a : option string) k v :
  orRequired a (getRequiredEnv env k) = inr v ->
  v <> ""
  /\ (forall x, a = Some x -> x <> "" -> v = x)
  /\ (JsString.truthyOpt a = false -> env !! k = Some v).
Proof.
  unfold orRequired, getRequiredEnv.
  destruct a as [[|c s]|]; cbn; destruct (env !! k) as [[|c' s']|]; cbn;
    try discriminate; intros [= <-]; repeat split; try discriminate;
    try (intros x [= <-] Hx; (reflexivity || contradiction)); reflexivity.
Qed.

(** X10.  [createConfig] succeeds exactly when each required setting is given, by
    the override or by the environment; otherwise it throws the error that
    names the first one, in reading order, that is not. *)
Theorem createConfig_first_missing (env : gmap string string) (override : PartialConfig) :
  match find (fun r => negb (given env override r)) required with
  | Some (key, _) =>
      createConfig env override
      = inl (newError ("Missing required environment variable: " ++ key))
  | None => exists c, createConfig env override = inr c
  end.
Proof.
  unfold required, createConfig. cbn [find].
  destruct (given env override ("BASE_RPC_URL", _)) eqn:H1; cbn [negb];
    [|rewrite (orRequired_missing _ _ _ _ H1); reflexivity].
  destruct (orRequired_given _ _ _ _ H1) as (v1 & -> & _).
  destruct (given env override ("APTOS_RPC_URL", _)) eqn:H2; cbn [negb];
    [|rewrite (orRequired_missing _ _ _ _ H2); reflexivity].
  destruct (orRequired_given _ _ _ _ H2) as (v2 & -> & _).
  destruct (given env override ("BASE_SPONSOR_PRIVATE_KEY", _)) eqn:H3; cbn [negb];
    [|rewrite (orRequired_missing _ _ _ _ H3); reflexivity].
  destruct (orRequired_given _ _ _ _ H3) as (v3 & -> & _).
  destruct (given env override ("APTOS_SPONSOR_PRIVATE_KEY", _)) eqn:H4; cbn [negb];
    [|rewrite (orRequired_missing _ _ _ _ H4); reflexivity].
  destruct (orRequired_given _ _ _ _ H4) as (v4 & -> & _).
  eauto.
Qed.

(** X11.  Where each setting of a created configuration comes from: the override
    when it is a non-empty string, the environment otherwise; the four
    required settings and the network type are never empty. *)
Theorem createConfig_provenance (env : gmap string string) (override : PartialConfig)
    (c : Config) :
  createConfig env override = inr c ->
  (baseRpcUrl c <> ""
   /\ aptosRpcUrl c <> ""
   /\ baseSponsorPrivateKey c <> ""
   /\ aptosSponsorPrivateKey c <> ""
   /\ networkType c <> "")
  /\ (forall v, p_baseRpcUrl override = Some v -> v <> "" -> baseRpcUrl c = v)
  /\ (forall v, p_aptosRpcUrl override = Some v -> v <> "" -> aptosRpcUrl c = v)
  /\ (forall v, p_baseSponsorPrivateKey override = Some v -> v <> "" ->
                baseSponsorPrivateKey c = v)
  /\ (forall v, p_aptosSponsorPrivateKey override = Some v -> v <> "" ->
                aptosSponsorPrivateKey c = v)
  /\ (JsString.truthyOpt (p_baseRpcUrl override) = false ->
      env !! "BASE_RPC_URL" = Some (baseRpcUrl c))
  /\ (JsString.truthyOpt (p_aptosRpcUrl override) = false ->
      env !! "APTOS_RPC_URL" = Some (aptosRpcUrl c))
  /\ (JsString.truthyOpt (p_baseSponsorPrivateKey override) = false ->
      env !! "BASE_SPONSOR_PRIVATE_KEY" = Some (baseSponsorPrivateKey c))
  /\ (JsString.truthyOpt (p_aptosSponsorPrivateKey override) = false ->
      env !! "APTOS_SPONSOR_PRIVATE_KEY" = Some (aptosSponsorPrivateKey c)).
Proof.
  unfold createConfig. intros H.
  destruct (orRequired (p_baseRpcUrl override) _) as [|v1] eqn:H1; [discriminate|].
  destruct (orRequired (p_aptosRpcUrl override) _) as [|v2] eqn:H2; [discriminate|].
  destruct (orRequired (p_baseSponsorPrivateKey override) _) as [|v3] eqn:H3; [discriminate|].
  destruct (orRequired (p_aptosSponsorPrivateKey override) _) as [|v4] eqn:H4; [discriminate|].
  injection H as <-. cbn.
  apply orRequired_source in H1 as (? & ? & ?), H2 as (? & ? & ?),
        H3 as (? & ? & ?), H4 as (? & ? & ?).
  repeat split; auto.
  destruct (p_networkType override) as [[|? ?]|]; cbn; try discriminate;
    destruct (getOptionalEnv env "NETWORK_TYPE") as [[|? ?]|]; cbn; discriminate.
Qed.

(** X12.  The exported [config] is what [createConfig] gives for an empty
    override: it throws for the first required variable, in reading order,
    that the environment lacks or has empty, and otherwise holds the
    environment's values, with "Testnet" for a network type that is absent
    or empty. *)
Theorem config_reads_the_environment (env : gmap string string) :
  config env = createConfig env noOverride
  /\ match find (fun key => negb (JsString.truthyOpt (env !! key)))
             (map fst required) with
     | Some key =>
         config env = inl (newError ("Missing required environment variable: " ++ key))
     | None =>
         exists c,
           config env = inr c
           /\ env !! "BASE_RPC_URL" = Some (baseRpcUrl c)
           /\ env !! "APTOS_RPC_URL" = Some (aptosRpcUrl c)
           /\ env !! "BASE_SPONSOR_PRIVATE_KEY" = Some (baseSponsorPrivateKey c)
           /\ env !! "APTOS_SPONSOR_PRIVATE_KEY" = Some (aptosSponsorPrivateKey c)
           /\ networkType c = JsString.orElse (env !! "NETWORK_TYPE") "Testnet"
           /\ baseUsdcAddress c = env !! "BASE_USDC_ADDRESS"
           /\ baseTokenMessengerAddress c = env !! "BASE_TOKEN_MESSENGER_ADDRESS"
           /\ baseMessageTransmitterAddress c = env !! "BASE_MESSAGE_TRANSMITTER_ADDRESS"
     end.
Proof.
  split; [reflexivity|].
  unfold config, getRequiredEnv, getOptionalEnv, required. cbn [map fst find].
  destruct (env !! "BASE_RPC_URL") as [[|c1 s1]|]; cbn; try reflexivity.
  destruct (env !! "APTOS_RPC_URL") as [[|c2 s2]|]; cbn; try reflexivity.
  destruct (env !! "BASE_SPONSOR_PRIVATE_KEY") as [[|c3 s3]|]; cbn; try reflexivity.
  destruct (env !! "APTOS_SPONSOR_PRIVATE_KEY") as [[|c4 s4]|]; cbn; try reflexivity.
  eexists. split; [reflexivity|]. cbn. repeat split.
Qed.

(** X13.  [transferUsdcViaCctp] selects its network from the exported
    constant [config], which no override reaches: the main network is
    selected exactly when NETWORK_TYPE is the exact string "Mainnet"; every
    other value, the empty one and none select the test network. *)
Theorem mainnet_only_when_spelled_exactly (env : gmap string string) (c : Config) :
  config env = inr c ->
  (selectedNetwork c = Mainnet <-> env !! "NETWORK_TYPE" = Some "Mainnet").
Proof.
  intros H.
  assert (networkType c
          = JsString.orElse (getOptionalEnv env "NETWORK_TYPE") "Testnet") as Hn.
  { unfold config in H.
    repeat match type of H with
           | match ?x with _ => _ end = _ => destruct x; [discriminate|]
           end.
    injection H as <-. reflexivity. }
  unfold selectedNetwork. rewrite Hn. unfold getOptionalEnv.
  destruct (env !! "NETWORK_TYPE") as [[|a s]|]; cbn -[String.eqb];
    repeat match goal with |- context [String.eqb ?x ?y] => destruct (String.eqb_spec x y) end;
    (split; [ intros Hx; try discriminate; congruence
            | intros Hx; try discriminate; try reflexivity; congruence ]).
Qed.

End ConfigFacts.

Lemma createConfig_provenance_witness :
  exists c,
    ConfigTs.createConfig exampleEnv exampleOverride = inr c
    /\ ConfigTs.baseRpcUrl c = "http://localhost:8545"
    /\ exampleEnv !! "APTOS_RPC_URL" = Some (ConfigTs.aptosRpcUrl c).
Proof.
  eexists. split; [vm_compute; reflexivity|].
  destruct (createConfig_provenance exampleEnv exampleOverride _ eq_refl)
    as (_ & Hurl & _ & _ & _ & _ & Haptos & _).
  split; [apply Hurl; [reflexivity | discriminate] | apply Haptos; reflexivity].
Defined.

Lemma mainnet_only_when_spelled_exactly_witness :
  exists c,
    ConfigTs.config exampleEnv = inr c
    /\ (ConfigTs.selectedNetwork c = Mainnet <->
        exampleEnv !! "NETWORK_TYPE" = Some "Mainnet").
Proof.
  eexists. split; [vm_compute; reflexivity|].
  apply (mainnet_only_when_spelled_exactly exampleEnv).
  vm_compute. reflexivity.
Defined.

(** ** The polling revision and its runner *)




Section PollingTransferFacts.
Import PollingRevision.

Lemma pollLoop_delivers (attempts : nat -> Attempt) (startTime : Z) (fuel : nat) :
  forall st r st',
    received (attestationIds st) = false ->
    pollLoop fuel attempts startTime st = Some (r, st') ->
    match r with
    | inr ids => (exists i, fetch_answer (attempts i) = inr (Some ids)) /\ ids <> []
                 /\ fetchStarts (log st') <> []
    | inl e => e = timeoutInCatch \/ e = timeoutAfterLoop
               \/ exists i, fetch_answer (attempts i) = inl e /\ notReadyYet e = false
    end.
Proof.
  induction fuel as [|fuel IH]; intros st r st' Hnone Hrun; [discriminate|].
  cbn [pollLoop] in Hrun.
  destruct (clock st - startTime <? maxTimeout).
  - destruct (fetch_answer (attempts (attempt st))) as [err|ids] eqn:Hans.
    + cbn [clock delay attestationIds attempt log] in Hrun.
      destruct (_ <=? 0).
      * injection Hrun as <- <-. left. reflexivity.
      * destruct (notReadyYet err) eqn:Hnr.
        -- eapply IH; [|exact Hrun]. exact Hnone.
        -- injection Hrun as <- <-. right. right. eauto.
    + cbn [clock delay attestationIds attempt log] in Hrun.
      destruct (received ids) eqn:Hrec.
      * injection Hrun as <- <-. cbn [log].
        destruct ids as [[|a l]|]; try discriminate. cbn.
        split; [eauto|]. split; [discriminate|].
        unfold fetchStarts. rewrite omap_app. cbn. intros H.
        apply app_eq_nil in H as [_ H]. discriminate.
      * eapply IH; [|exact Hrun]. exact Hrec.
  - rewrite Hnone in Hrun. injection Hrun as <- <-. right. left. reflexivity.
Qed.

Lemma pollLoop_never_delivered (attempts : nat -> Attempt) (startTime : Z) (fuel : nat) :
  (forall i, notDelivering (attempts i)) ->
  forall st r st',
    received (attestationIds st) = false ->
    pollLoop fuel attempts startTime st = Some (r, st') ->
    r = inl timeoutInCatch \/ r = inl timeoutAfterLoop.
Proof.
  intros Hnd st r st' Hnone Hrun.
  pose proof (pollLoop_delivers attempts startTime fuel st r st' Hnone Hrun) as H.
  destruct r as [e|ids].
  - destruct H as [->| [->| (i & Hi & Hn)]]; auto.
    specialize (Hnd i). unfold notDelivering in Hnd. rewrite Hi in Hnd. congruence.
  - destruct H as ((i & Hi) & Hne & _).
    specialize (Hnd i). unfold notDelivering in Hnd. rewrite Hi in Hnd.
    destruct ids; [contradiction | discriminate].
Qed.

Import PollingTransfer.

Ltac split_cases :=
  match goal with
  | |- context [match ?x with _ => _ end] =>
      lazymatch x with
      | context [match _ with _ => _ end] => fail
      | _ => destruct x eqn:?
      end
  end.

Lemma fetchCalls_replicate (l : list PollEvent) :
  fetchCalls l = replicate (length (fetchStarts l)) (CallFetchAttestation 10000).
Proof. unfold fetchCalls. induction (fetchStarts l); cbn; congruence. Qed.

(** What [submitSource] leaves behind. *)
Lemma submitSource_calls (w : World) (request : CctpTransferRequest) :
  match submitSource w request [] with
  | (inr tx, calls) =>
      exists a s r ids,
        calls = [CallCircleTransfer a s r; CallQuoteTransfer; CallInitiateTransfer]
        /\ initiateTransfer w = inr ids /\ tx = firstTx ids
        /\ quoteTransfer w = inr tt
  | (inl e, calls) =>
      (exists a s r,
         calls `prefix_of` [CallCircleTransfer a s r; CallQuoteTransfer; CallInitiateTransfer])
      /\ (In CallInitiateTransfer calls -> initiateTransfer w = inl e)
      /\ (forall e', quoteTransfer w = inl e' -> ~ In CallInitiateTransfer calls)
  end.
Proof.
  unfold submitSource, bind, call, lift, ret.
  repeat (simpl; split_cases); simpl;
    repeat match goal with u : unit |- _ => destruct u end;
    first
      [ solve [eexists _, _, _, _; repeat split; reflexivity]
      | split; [ first [ exists 0, "", ""; apply prefix_nil
                       | eexists _, _, _; eexists; reflexivity ] |];
        split; [ intros Hin; first [ reflexivity
                                   | exfalso; clear -Hin; cbn in Hin; intuition discriminate ]
               | intros e' He'; first [ discriminate
                                      | clear; cbn; intuition discriminate ] ] ].
Qed.

Lemma initial_not_received (t : Z) : received (attestationIds (initialState t)) = false.
Proof. reflexivity. Qed.

Lemma polling_run_shape (fuel : nat) (w : World)
    (request : CctpTransferRequest) (result : TransferResult) (calls : list ChainCall) :
  transferUsdcViaCctp fuel w request = Some (result, calls) ->
  exists a s r n,
    calls `prefix_of` fullPollingRun a s r n
    /\ (success result = true <->
        calls = fullPollingRun a s r n /\ exists dst, completeTransfer w = inr dst)
    /\ (success result = true ->
        (0 < n)%nat
        /\ exists i ids,
             fetch_answer (attempts w i) = inr (Some ids)
             /\ ids <> []
             /\ attestationId result = head ids).
Proof.
  unfold transferUsdcViaCctp, awaitAttestation, pollAttestation.
  pose proof (submitSource_calls w request) as Hsrc.
  destruct (submitSource w request []) as [[e|tx] calls0].
  - intros H; injection H as <- <-. destruct Hsrc as ((a & s & r & Hp) & _).
    exists a, s, r, 0%nat. split; [|split; [split|]; try discriminate].
    + etransitivity; [exact Hp|]. unfold fullPollingRun. cbn.
      do 3 apply prefix_cons. apply prefix_nil.
    + intros [Hc _]. exfalso. rewrite Hc in Hp. unfold fullPollingRun in Hp. cbn in Hp.
      apply prefix_length in Hp. cbn in Hp. lia.
  - destruct Hsrc as (a & s & r & ids0 & -> & _).
    destruct (pollLoop fuel _ _ _) as [[pr st]|] eqn:Hpoll; [|discriminate].
    pose proof (pollLoop_delivers _ _ _ _ _ _ (initial_not_received _) Hpoll) as Hd.
    rewrite fetchCalls_replicate. intros Hrun.
    exists a, s, r, (length (fetchStarts (log st))).
    destruct pr as [e|ids].
    + injection Hrun as <- <-. split; [|split; [split|]; try discriminate].
      * unfold fullPollingRun. cbn. do 3 apply prefix_cons. apply prefix_app_r. reflexivity.
      * intros [Hc _]. exfalso. unfold fullPollingRun in Hc. cbn in Hc.
        injection Hc as Hc. apply (f_equal length) in Hc.
        rewrite length_app in Hc. cbn in Hc. lia.
    + destruct Hd as ((i & Hi) & Hne & Hf).
      unfold completeOnDestination, bind, call, ret in Hrun.
      destruct (completeTransfer w) as [e|dst]; injection Hrun as <- <-.
      * split; [unfold fullPollingRun; cbn; reflexivity|].
        split; [split; [discriminate | intros (_ & ? & ?); discriminate] | discriminate].
      * split; [unfold fullPollingRun; cbn; reflexivity|].
        split; [split; [intros _; split; [unfold fullPollingRun; cbn; reflexivity | eauto]
                       | reflexivity]|].
        intros _.
        split; [destruct (fetchStarts (log st)); [contradiction | cbn; lia]|].
        exists i, ids. auto.
Qed.

(** X14.  In the polling revision the calls of every run are an initial part of:
    create the transfer, quote, initiate, fetch n times, complete.  A run
    succeeds exactly when it made them all and [completeTransfer] answered;
    it then fetched at least once and reports the first id of an
    attestation that a fetch returned. *)
Theorem polling_calls_follow_the_protocol (fuel : nat) (w : World)
    (request : CctpTransferRequest) (result : TransferResult) (calls : list ChainCall) :
  transferUsdcViaCctp fuel w request = Some (result, calls) ->
  exists a s r n,
    calls `prefix_of` fullPollingRun a s r n
    /\ (success result = true <->
        calls = fullPollingRun a s r n /\ exists dst, completeTransfer w = inr dst)
    /\ (success result = true ->
        (0 < n)%nat
        /\ exists i ids,
             fetch_answer (attempts w i) = inr (Some ids)
             /\ ids <> []
             /\ attestationId result = head ids).
Proof. apply polling_run_shape. Qed.

(** A complete run is an initial part of no other complete run. *)
Lemma fullPollingRun_prefix (a a' : Z) (s s' r r' : string) (n n' : nat) :
  fullPollingRun a' s' r' n' `prefix_of` fullPollingRun a s r n ->
  fullPollingRun a' s' r' n' = fullPollingRun a s r n.
Proof.
  intros [k Hk]. unfold fullPollingRun in *. cbn in Hk. cbn.
  injection Hk as -> -> -> Hk. do 3 f_equal.
  revert n Hk. induction n' as [|n' IH]; intros [|n] Hk; cbn in *.
  - reflexivity.
  - discriminate.
  - injection Hk as Hk. destruct n'; discriminate.
  - injection Hk as Hk. f_equal. auto.
Qed.


(** X16.  When the attestation service never delivers, every attempt takes at
    least a millisecond and no timer fires early, a run that submitted the
    source transaction ends, with a failure whose message names the 180
    seconds, without a call of [completeTransfer]. *)
Theorem unavailable_attestation_times_out (fuel : nat) (w : World)
    (request : CctpTransferRequest) (tx : option string) (calls0 : list ChainCall) :
  (forall i, 1 <= fetch_ms (attempts w i)) ->
  (forall i, 0 <= timer_lag (attempts w i)) ->
  (forall i, notDelivering (attempts w i)) ->
  180000 < Z.of_nat fuel ->
  submitSource w request [] = (inr tx, calls0) ->
  exists result calls,
    transferUsdcViaCctp fuel w request = Some (result, calls)
    /\ success result = false
    /\ (exists msg,
          error result = Some msg
          /\ (msg = err_message timeoutInCatch \/ msg = err_message timeoutAfterLoop)
          /\ JsString.includes "180 seconds" msg = true)
    /\ In CallInitiateTransfer calls
    /\ ~ In CallCompleteTransfer calls.
Proof.
  intros Hms Hlag Hnd Hfuel Hsrc.
  pose proof (submitSource_calls w request) as Hshape. rewrite Hsrc in Hshape.
  destruct Hshape as (a & s & r & ids0 & -> & _).
  unfold transferUsdcViaCctp, awaitAttestation, pollAttestation. rewrite Hsrc.
  destruct (pollLoop_terminates (attempts w) (startTime w) Hms Hlag fuel
              (initialState (startTime w))) as [[pr st] Hpoll].
  { exists 0%nat. reflexivity. }
  { cbn. unfold maxTimeout. lia. }
  rewrite Hpoll.
  pose proof (pollLoop_never_delivered _ _ _ Hnd _ _ _ (initial_not_received _) Hpoll) as Hout.
  rewrite fetchCalls_replicate.
  assert (forall n, ~ In CallCompleteTransfer
            ([CallCircleTransfer a s r; CallQuoteTransfer; CallInitiateTransfer]
             ++ replicate n (CallFetchAttestation 10000))) as Hnc.
  { intros n Hin. apply in_app_or in Hin as [Hin|Hin].
    - cbn in Hin. intuition discriminate.
    - apply list_elem_of_In, elem_of_replicate in Hin as [Hin _]. discriminate. }
  destruct Hout as [-> | ->]; eexists _, _; (split; [reflexivity|]);
    (split; [reflexivity|]);
    (split; [eexists; split; [reflexivity|]; split; [cbn; auto | vm_compute; reflexivity]|]);
    (split; [cbn; auto | apply Hnc]).
Qed.

End PollingTransferFacts.

Lemma polling_calls_follow_the_protocol_witness :
  exists result calls,
    PollingTransfer.transferUsdcViaCctp 10 (pollingWorld (inr tt) thirdTimeLucky) pollingRequest
    = Some (result, calls)
    /\ exists a s r n,
         calls `prefix_of` fullPollingRun a s r n
         /\ (success result = true <->
             calls = fullPollingRun a s r n
             /\ exists dst,
                  PollingTransfer.completeTransfer (pollingWorld (inr tt) thirdTimeLucky)
                  = inr dst)
         /\ (success result = true ->
             (0 < n)%nat
             /\ exists i ids,
                  PollingRevision.fetch_answer
                    (PollingTransfer.attempts (pollingWorld (inr tt) thirdTimeLucky) i)
                  = inr (Some ids)
                  /\ ids <> []
                  /\ attestationId result = head ids).
Proof.
  eexists _, _. split; [vm_compute; reflexivity|].
  apply (polling_calls_follow_the_protocol 10 (pollingWorld (inr tt) thirdTimeLucky)
           pollingRequest).
  vm_compute. reflexivity.
Defined.


Lemma unavailable_attestation_times_out_witness :
  exists result calls,
    PollingTransfer.transferUsdcViaCctp (Z.to_nat 180001)
      (pollingWorld (inr tt) slowService) pollingRequest
    = Some (result, calls)
    /\ success result = false
    /\ (exists msg,
          error result = Some msg
          /\ (msg = err_message timeoutInCatch \/ msg = err_message timeoutAfterLoop)
          /\ JsString.includes "180 seconds" msg = true)
    /\ In CallInitiateTransfer calls
    /\ ~ In CallCompleteTransfer calls.
Proof.
  apply (unavailable_attestation_times_out (Z.to_nat 180001)
           (pollingWorld (inr tt) slowService) pollingRequest (Some "0xsourcetx")
           [CallCircleTransfer 1500000 "0x70997970C51812dc3A010C7d01b50e0d17dc79C8"
              "0xc3e2a21da9f68dcd3ad8668c8fb72ede9f46fea67652fbffa9db8f8af0c612cf";
            CallQuoteTransfer; CallInitiateTransfer]).
  - intros i. cbn. lia.
  - intros i. cbn. lia.
  - intros i. reflexivity.
  - rewrite Z2Nat.id; lia.
  - vm_compute. reflexivity.
Defined.

(** ** Signs of numbers *)

Section SignFacts.


Lemma binary_round_aux_sign (s : bool) (m e : Z) (l : location) :
  match binary_round_aux JsNumber.prec JsNumber.emax s m e l with
  | S754_zero s' | S754_infinity s' | S754_finite s' _ _ => s' = s
  | S754_nan => True
  end.
Proof.
  unfold binary_round_aux.
  destruct (shr_fexp _ _ m e l) as [mrs e'].
  destruct (shr_fexp _ _ _ e' loc_Exact) as [mrs' e''].
  destruct (shr_m mrs'); [reflexivity| |exact I].
  destruct (e'' <=? _); reflexivity.
Qed.

Lemma mul_notNegative (m1 m2 : positive) (e1 e2 : Z) :
  notNegative (JsNumber.mul (S754_finite false m1 e1) (S754_finite false m2 e2)).
Proof.
  unfold JsNumber.mul, SFmul. cbn [xorb].
  pose proof (binary_round_aux_sign false (Zpos (m1 * m2)) (e1 + e2) loc_Exact) as H.
  destruct (binary_round_aux _ _ _ _ _ _) as [| | |s m e]; try exact I.
  subst s. exact I.
Qed.

Lemma floor_notNegative (x : JsNumber.number) :
  notNegative x -> notNegative (JsNumber.Math_floor x).
Proof.
  destruct x as [s|s| |s m e]; try (intros _; exact I).
  destruct s; [contradiction|]. intros _. unfold JsNumber.Math_floor.
  destruct e as [|e|k]; try exact I.
  pose proof (Z.shiftr_nonneg (Zpos m) (Zpos k)) as Hq.
  destruct (Z.shiftr (Zpos m) (Zpos k)) as [|q|q]; [exact I| |lia].
  unfold binary_normalize, binary_round.
  destruct (shl_align _ _ _) as [mz ez].
  pose proof (binary_round_aux_sign false (Zpos mz) ez loc_Exact) as H.
  destruct (binary_round_aux _ _ _ _ _ _) as [| | |s m' e']; try exact I.
  subst s. exact I.
Qed.

Lemma BigInt_notNegative (x : JsNumber.number) (a : Z) :
  notNegative x -> JsNumber.BigInt x = inr a -> 0 <= a.
Proof.
  destruct x as [s|s| |s m e]; cbn; try discriminate.
  - intros _ [= <-]. lia.
  - destruct s; [contradiction|]. intros _.
    destruct e as [|e|k].
    + intros [= <-]. apply (Z.shiftl_nonneg (Zpos m) 0). lia.
    + intros [= <-]. apply (Z.shiftl_nonneg (Zpos m) (Zpos e)). lia.
    + destruct (_ =? 0); [|discriminate]. intros [= <-].
      apply (Z.shiftr_nonneg (Zpos m) (Zpos k)). lia.
Qed.

End SignFacts.

Section RunCctpFacts.
Import PollingRevision PollingTransfer RunCctp.

Ltac split_cases' :=
  match goal with
  | |- context [match ?x with _ => _ end] =>
      lazymatch x with
      | context [match _ with _ => _ end] => fail
      | _ => destruct x eqn:?
      end
  end.

Lemma accepted_amount_not_negative (amount : string) (a : Z) :
  invalidAmount (JsNumber.parseFloat amount) = false ->
  toSmallestUnits amount = inr a ->
  0 <= a.
Proof.
  unfold toSmallestUnits. intros Hv Ha.
  refine (BigInt_notNegative _ _ (floor_notNegative _ _) Ha).
  destruct (JsNumber.parseFloat amount) as [s|s| |s m e];
    try (destruct s); try discriminate Hv; try exact I.
  - change (JsNumber.ofZ 1000000) with (S754_finite false 8589934592000000 (-33)).
    apply mul_notNegative.
Qed.

(** The first chain call of [submitSource] carries the converted amount,
    the sponsor's address and the recipient. *)
Lemma submitSource_first_call (w : World) (request : CctpTransferRequest)
    (c : ChainCall) (rest : list ChainCall) :
  snd (submitSource w request []) = c :: rest ->
  exists a s aptos,
    c = CallCircleTransfer a s (JsString.orElse (destAddress request) aptos)
    /\ toSmallestUnits (amount request) = inr a
    /\ getEvmSigner w = inr s
    /\ getAptosSigner w = inr aptos.
Proof.
  unfold submitSource, bind, call, lift, ret.
  repeat (simpl; split_cases'); simpl; try discriminate;
    intros H; injection H as <- _; eexists _, _, _; repeat split; reflexivity.
Qed.

Lemma transfer_first_call (fuel : nat) (w : World) (request : CctpTransferRequest)
    (result : TransferResult) (c : ChainCall) (rest : list ChainCall) :
  transferUsdcViaCctp fuel w request = Some (result, c :: rest) ->
  exists a s aptos,
    c = CallCircleTransfer a s (JsString.orElse (destAddress request) aptos)
    /\ toSmallestUnits (amount request) = inr a
    /\ getEvmSigner w = inr s
    /\ getAptosSigner w = inr aptos.
Proof.
  unfold transferUsdcViaCctp, awaitAttestation.
  pose proof (submitSource_first_call w request) as Hfirst.
  pose proof (submitSource_calls w request) as Hshape.
  destruct (submitSource w request []) as [[e|tx] calls0]; cbn [snd] in Hfirst.
  - intros H; injection H as _ ->. eapply Hfirst. reflexivity.
  - destruct Hshape as (a & s & r & ids & -> & _).
    specialize (Hfirst _ _ eq_refl).
    destruct (pollAttestation _ _ _) as [[pr st]|]; [|discriminate].
    destruct pr as [e|ids'].
    + intros H; injection H as _ <- _. exact Hfirst.
    + unfold completeOnDestination, bind, call, ret.
      destruct (completeTransfer w); intros H; injection H as _ <- _; exact Hfirst.
Qed.

(** X17.  The runner makes a chain call only for an amount that parses to a
    positive number and, when a recipient is given, for one of 64
    hexadecimal digits after an optional "0x"; the amount that goes into
    the transfer is then not negative. *)
Theorem runner_validates_before_any_chain_call (fuel : nat) (w : World)
    (argv : list string) (code : Z) (calls : list ChainCall) :
  main fuel w argv = Some (code, calls) ->
  calls <> [] ->
  exists amount to a s r rest,
    parseArgs argv = Values (Some amount) to
    /\ invalidAmount (JsNumber.parseFloat amount) = false
    /\ (forall t, to = Some t -> t <> "" -> isHex64 (cleanAddr t) = true)
    /\ calls = CallCircleTransfer a s r :: rest
    /\ toSmallestUnits amount = inr a
    /\ 0 <= a.
Proof.
  unfold main. intros Hmain Hne.
  destruct (parseArgs argv) as [|[amount|] to]; try (injection Hmain as _ <-; contradiction).
  destruct (JsString.truthy amount); cbn [negb] in Hmain;
    [|injection Hmain as _ <-; contradiction].
  destruct (invalidAmount _) eqn:Hv; [injection Hmain as _ <-; contradiction|].
  destruct (JsString.truthyOpt to && _) eqn:Hto; [injection Hmain as _ <-; contradiction|].
  destruct (transferUsdcViaCctp _ _ _) as [[result calls']|] eqn:Hrun; [|discriminate].
  assert (calls' = calls) as -> by (destruct (success result); congruence).
  destruct calls as [|c rest]; [contradiction|].
  destruct (transfer_first_call _ _ _ _ _ _ Hrun) as (a & s & aptos & -> & Ha & _).
  cbn [PollingTransfer.amount PollingTransfer.destAddress] in *.
  exists amount, to, a, s, (JsString.orElse to aptos), rest.
  repeat split; auto.
  - intros t -> Ht. cbn in Hto. destruct t; [contradiction|]. cbn in Hto.
    destruct (isHex64 _); [reflexivity | discriminate].
  - eapply accepted_amount_not_negative; eassumption.
Qed.

(** X18.  The exit code of the runner is 0 or 1, and it is 0 exactly when the
    usage was asked for or the transfer made all its calls and
    [completeTransfer] answered. *)
Theorem runner_exit_code (fuel : nat) (w : World)
    (argv : list string) (code : Z) (calls : list ChainCall) :
  main fuel w argv = Some (code, calls) ->
  (code = 0 \/ code = 1)
  /\ (code = 0 <->
      parseArgs argv = ExitedWithUsage
      \/ exists a s r n,
           calls = fullPollingRun a s r n /\ exists dst, completeTransfer w = inr dst).
Proof.
  unfold main. intros Hmain.
  assert (forall a s r n, @nil ChainCall <> fullPollingRun a s r n) as Hnil by discriminate.
  destruct (parseArgs argv) as [|[amount|] to].
  - injection Hmain as <- <-. split; [auto|]. split; auto.
  - destruct (JsString.truthy amount); cbn [negb] in Hmain.
    2:{ injection Hmain as <- <-. split; [auto|]. split; [discriminate|].
        intros [?|(a & s & r & n & Hc & _)]; [discriminate | destruct (Hnil _ _ _ _ Hc)]. }
    destruct (invalidAmount _).
    { injection Hmain as <- <-. split; [auto|]. split; [discriminate|].
      intros [?|(a & s & r & n & Hc & _)]; [discriminate | destruct (Hnil _ _ _ _ Hc)]. }
    destruct (JsString.truthyOpt to && _).
    { injection Hmain as <- <-. split; [auto|]. split; [discriminate|].
      intros [?|(a & s & r & n & Hc & _)]; [discriminate | destruct (Hnil _ _ _ _ Hc)]. }
    destruct (transferUsdcViaCctp _ _ _) as [[result calls']|] eqn:Hrun; [|discriminate].
    destruct (polling_run_shape _ _ _ _ _ Hrun)
      as (a & s & r & n & Hp & Hiff & _).
    destruct (success result) eqn:Hok; injection Hmain as <- <-.
    + split; [auto|]. split; [|reflexivity]. intros _. right.
      destruct Hiff as [Hiff _]. destruct (Hiff eq_refl) as (Hc & Hd). eauto 10.
    + split; [auto|]. split; [discriminate|].
      intros [?|(a' & s' & r' & n' & Hc & Hd)]; [discriminate|].
      exfalso. destruct Hiff as [_ Hiff].
      assert (calls' = fullPollingRun a s r n) as Hc'.
      { rewrite Hc in Hp |- *. apply fullPollingRun_prefix. exact Hp. }
      assert (true = false) by (rewrite <- Hiff; [reflexivity | split; [exact Hc' | exact Hd]]).
      discriminate.
  - injection Hmain as <- <-. split; [auto|]. split; [discriminate|].
    intros [?|(a & s & r & n & Hc & _)]; [discriminate | destruct (Hnil _ _ _ _ Hc)].
Qed.

End RunCctpFacts.

Lemma runner_validates_before_any_chain_call_witness :
  exists code calls,
    RunCctp.main 10 (pollingWorld (inr tt) thirdTimeLucky) ["--amount"; "1.5"]
    = Some (code, calls)
    /\ exists amount to a s r rest,
         RunCctp.parseArgs ["--amount"; "1.5"] = RunCctp.Values (Some amount) to
         /\ RunCctp.invalidAmount (JsNumber.parseFloat amount) = false
         /\ (forall t, to = Some t -> t <> "" -> RunCctp.isHex64 (RunCctp.cleanAddr t) = true)
         /\ calls = CallCircleTransfer a s r :: rest
         /\ toSmallestUnits amount = inr a
         /\ 0 <= a.
Proof.
  eexists _, _. split; [vm_compute; reflexivity|].
  apply (runner_validates_before_any_chain_call 10 (pollingWorld (inr tt) thirdTimeLucky)
           ["--amount"; "1.5"] 0).
  - vm_compute. reflexivity.
  - discriminate.
Defined.

Lemma runner_exit_code_witness :
  exists calls,
    RunCctp.main 10 (pollingWorld (inr tt) slowService) ["--amount"; "1.5"] = Some (1, calls)
    /\ ~ (exists a s r n,
            calls = fullPollingRun a s r n
            /\ exists dst,
                 PollingTransfer.completeTransfer (pollingWorld (inr tt) slowService) = inr dst).
Proof.
  eexists. split; [vm_compute; reflexivity|].
  intros H.
  refine ((fun T => _)
            (runner_exit_code 10 (pollingWorld (inr tt) slowService) ["--amount"; "1.5"] 1 _ _)).
  - destruct T as [_ [_ T]].
    enough (1 = 0) by lia. apply T. right. exact H.
  - vm_compute. reflexivity.
Defined.

(** ** The signature helper *)



Section GenerateFacts.
Import GeneratePermit2.
Context {E : Eip712} {L : Eip712Laws E}.

(** What a run that printed a signature went through. *)
Lemma generateSignature_printed (w : World) (args : Permit2GenerationArgs)
    (sig : string) (permit : Permit2Permit) :
  generateSignature w args = Printed sig permit ->
  exists signer chain a n,
    getNetwork w = inr chain
    /\ toSmallestUnits (amount args) = inr a
    /\ (JsString.truthyOpt (nonce args) = false -> n = 0)
    /\ permit = createPermit (Date_now w) (wallet_address signer)
                  (JsString.orElse (spenderAddress args) getPermit2Address)
                  (JsString.orElse (tokenAddress args) BASE_SEPOLIA_USDC)
                  a n
                  (match deadlineHours args with
                   | Some h => if h =? 0 then 1 else h
                   | None => 1
                   end * 3600)
    /\ Z.abs (deadline permit * 1000) <= maxTimeValue
    /\ generatePermit2Signature signer permit chain = inr sig.
Proof.
  unfold generateSignature.
  destruct (getNetwork w) as [|chain]; [discriminate|].
  destruct (Wallet w _) as [|signer]; [discriminate|].
  destruct (toSmallestUnits _) as [|a]; [discriminate|].
  destruct (JsString.truthyOpt (nonce args)) eqn:Hn.
  - destruct (BigInt_ofString _) as [n|]; [|discriminate].
    destruct (Z.gtb_spec (Z.abs (deadline (createPermit (Date_now w) (wallet_address signer)
        (JsString.orElse (spenderAddress args) getPermit2Address)
        (JsString.orElse (tokenAddress args) "0x036CbD53842c5426634e7929541eC2318f3dCF7e")
        a n (match deadlineHours args with
             | Some h => if h =? 0 then 1 else h
             | None => 1
             end * 3600)) * 1000)) maxTimeValue) as [|Hd]; [discriminate|].
    destruct (generatePermit2Signature _ _ _) as [|s] eqn:Hs; [discriminate|].
    intros [= <- <-]. exists signer, chain, a, n. repeat split; auto. discriminate.
  - destruct (Z.gtb_spec (Z.abs (deadline (createPermit (Date_now w) (wallet_address signer)
        (JsString.orElse (spenderAddress args) getPermit2Address)
        (JsString.orElse (tokenAddress args) "0x036CbD53842c5426634e7929541eC2318f3dCF7e")
        a 0 (match deadlineHours args with
             | Some h => if h =? 0 then 1 else h
             | None => 1
             end * 3600)) * 1000)) maxTimeValue) as [|Hd]; [discriminate|].
    destruct (generatePermit2Signature _ _ _) as [|s] eqn:Hs; [discriminate|].
    intros [= <- <-]. exists signer, chain, a, 0. repeat split; auto.
Qed.

(** With every option left at its default, a run in which each step
    answers prints the signature of the default permit. *)
Lemma generateSignature_prints (w : World) (key amount : string)
    (signer : signingKey) (chain a : Z) (sig : string) :
  getNetwork w = inr chain ->
  Wallet w (if JsString.startsWith "0x" key then key else "0x" ++ key) = inr signer ->
  toSmallestUnits amount = inr a ->
  Z.abs ((Date_now w / 1000 + 3600) * 1000) <= maxTimeValue ->
  generatePermit2Signature signer
    (createPermit (Date_now w) (wallet_address signer) getPermit2Address BASE_SEPOLIA_USDC
       a 0 3600) chain = inr sig ->
  generateSignature w (plainArgs key amount)
  = Printed sig
      (createPermit (Date_now w) (wallet_address signer) getPermit2Address BASE_SEPOLIA_USDC
         a 0 3600).
Proof.
  intros Hnet Hw Ha Hd Hsig. unfold generateSignature, plainArgs.
  cbn [fromPrivateKey GeneratePermit2.amount tokenAddress spenderAddress
       GeneratePermit2.nonce deadlineHours JsString.truthyOpt JsString.orElse].
  rewrite Hnet, Hw, Ha.
  change (1 * 3600) with 3600.
  change "0x036CbD53842c5426634e7929541eC2318f3dCF7e" with BASE_SEPOLIA_USDC.
  cbn [deadline createPermit].
  destruct (Z.gtb_spec (Z.abs ((Date_now w / 1000 + 3600) * 1000)) maxTimeValue) as [|_]; [lia|].
  cbn [createPermit] in Hsig. rewrite Hsig. reflexivity.
Qed.

(** X19.  The helper and the transfer agree: the signature and the permit data
    that the helper prints for an amount string authorize a delegated
    transfer of the same amount string from the key's address, on the chain
    the helper saw, until the printed deadline, which is the time of
    signing plus the hours asked for (one when none or zero is given) and
    lies in the range of a [Date]. *)
Theorem helper_output_is_authorized (w : World) (args : Permit2GenerationArgs)
    (sig : string) (permit : Permit2Permit) :
  generateSignature w args = Printed sig permit ->
  exists chain a,
    getNetwork w = inr chain
    /\ toSmallestUnits (amount args) = inr a
    /\ value permit = a
    /\ deadline permit
       = Date_now w / 1000
         + match deadlineHours args with
           | Some h => if h =? 0 then 1 else h
           | None => 1
           end * 3600
    /\ Z.abs (deadline permit * 1000) <= maxTimeValue
    /\ (forall now, chain <> 0 -> now / 1000 <= deadline permit ->
        verifyUserAuthorization now (owner permit) a sig (Some permit) (Some chain) = true).
Proof.
  intros Hrun.
  destruct (generateSignature_printed _ _ _ _ Hrun)
    as (signer & chain & a & n & Hnet & Ha & _ & Hp & Hd & Hsig).
  exists chain, a. repeat split; auto; try (rewrite Hp; reflexivity).
  intros now Hc Hnow.
  pose proof (signature_verifies signer permit chain sig Hsig permit (owner permit) eq_refl) as Hv.
  unfold verifyUserAuthorization.
  destruct (String.eqb sig "dummy"); [reflexivity|].
  rewrite String.eqb_refl. cbn [negb].
  assert (Row.value permit = a) as -> by (rewrite Hp; reflexivity).
  rewrite Z.eqb_refl. cbn [negb].
  assert ((deadline permit <? now / 1000) = false) as -> by (apply Z.ltb_ge; lia).
  destruct chain; [contradiction| |]; apply Hv; rewrite Hp; reflexivity.
Qed.

(** X20.  With every option left at its default the helper signs the permit that
    the verifier rebuilds when it is given no permit data, but for the
    second of signing: without permit data the printed signature is
    accepted exactly during the second in which it was made. *)
Theorem helper_defaults_expire_within_the_second (w : World) (key amount : string)
    (sig : string) (permit : Permit2Permit) (chain now : Z) :
  generateSignature w (plainArgs key amount) = Printed sig permit ->
  getNetwork w = inr chain ->
  chain <> 0 ->
  sig <> "dummy" ->
  (verifyUserAuthorization now (owner permit) (value permit) sig None (Some chain) = true
   <-> now / 1000 = Date_now w / 1000).
Proof.
  intros Hrun Hnet Hc Hnd.
  destruct (generateSignature_printed _ _ _ _ Hrun)
    as (signer & chain' & a & n & Hnet' & Ha & Hn & Hp & Hd & Hsig).
  rewrite Hnet in Hnet'. injection Hnet' as <-.
  specialize (Hn eq_refl). subst n. cbn in Hp.
  assert (owner permit = wallet_address signer) as Ho by (rewrite Hp; reflexivity).
  assert (Row.value permit = a) as Hv by (rewrite Hp; reflexivity).
  rewrite Ho, Hv.
  unfold verifyUserAuthorization.
  rewrite (proj2 (String.eqb_neq _ _) Hnd).
  assert (verifyPermit2Signature
            (createPermit now (wallet_address signer) getPermit2Address BASE_SEPOLIA_USDC a 0 3600)
            sig chain (wallet_address signer) = true
          <-> now / 1000 = Date_now w / 1000) as Hiff.
  { split.
    - intros Hver.
      destruct (verified_same_data signer permit _ chain chain sig _ Hsig eq_refl Hver)
        as (_ & _ & _ & _ & _ & _ & Hdl).
      rewrite Hp in Hdl. cbn in Hdl. lia.
    - intros Hsame.
      apply (signature_verifies signer permit chain sig Hsig); [|reflexivity].
      rewrite Hp. unfold typedValue, createPermit. cbn. rewrite Hsame. reflexivity. }
  destruct chain; [contradiction| |]; exact Hiff.
Qed.

End GenerateFacts.

Lemma helper_output_is_authorized_witness :
  exists sig,
    GeneratePermit2.generateSignature (E := Symbolic.eip712)
      (helperWorld beforeDeadline) (plainArgs alice "4.1")
    = GeneratePermit2.Printed sig
        (createPermit beforeDeadline alice getPermit2Address BASE_SEPOLIA_USDC 4099999 0 3600)
    /\ toSmallestUnits "4.1" = inr 4099999
    /\ verifyUserAuthorization (E := Symbolic.eip712)
         (beforeDeadline + 3600000) alice 4099999 sig
         (Some (createPermit beforeDeadline alice getPermit2Address BASE_SEPOLIA_USDC
                  4099999 0 3600))
         (Some 84532) = true.
Proof.
  eexists.
  assert (toSmallestUnits "4.1" = inr 4099999) as Hunits by (vm_compute; reflexivity).
  eassert (GeneratePermit2.generateSignature (E := Symbolic.eip712)
            (helperWorld beforeDeadline) (plainArgs alice "4.1")
          = GeneratePermit2.Printed _
              (createPermit beforeDeadline alice getPermit2Address BASE_SEPOLIA_USDC
                 4099999 0 3600)) as Hrun.
  { apply (generateSignature_prints (E := Symbolic.eip712) (helperWorld beforeDeadline)
             alice "4.1" alice 84532 4099999).
    - reflexivity.
    - reflexivity.
    - exact Hunits.
    - vm_compute. discriminate.
    - reflexivity. }
  split; [exact Hrun|]. split; [exact Hunits|].
  destruct (helper_output_is_authorized (E := Symbolic.eip712) (L := symbolic_laws)
              (helperWorld beforeDeadline) (plainArgs alice "4.1") _ _ Hrun)
    as (chain & a & Hnet & Ha & _ & _ & _ & Hok).
  injection Hnet as <-.
  change (GeneratePermit2.amount (plainArgs alice "4.1")) with "4.1" in Ha.
  rewrite Hunits in Ha. injection Ha as <-.
  apply Hok; [discriminate | vm_compute; discriminate].
Defined.

Lemma helper_defaults_expire_within_the_second_witness :
  exists sig,
    GeneratePermit2.generateSignature (E := Symbolic.eip712)
      (helperWorld beforeDeadline) (plainArgs alice "0.2")
    = GeneratePermit2.Printed sig
        (createPermit beforeDeadline alice getPermit2Address BASE_SEPOLIA_USDC 200000 0 3600)
    /\ verifyUserAuthorization (E := Symbolic.eip712)
         (beforeDeadline + 1000) alice 200000 sig None (Some 84532) = false.
Proof.
  eexists.
  eassert (GeneratePermit2.generateSignature (E := Symbolic.eip712)
            (helperWorld beforeDeadline) (plainArgs alice "0.2")
          = GeneratePermit2.Printed _
              (createPermit beforeDeadline alice getPermit2Address BASE_SEPOLIA_USDC
                 200000 0 3600)) as Hrun.
  { apply (generateSignature_prints (E := Symbolic.eip712) (helperWorld beforeDeadline)
             alice "0.2" alice 84532 200000).
    - reflexivity.
    - reflexivity.
    - vm_compute. reflexivity.
    - vm_compute. discriminate.
    - reflexivity. }
  split; [exact Hrun|].
  apply not_true_is_false. intros Hok.
  apply (helper_defaults_expire_within_the_second (E := Symbolic.eip712) (L := symbolic_laws)
           (helperWorld beforeDeadline) alice "0.2" _ _ 84532 (beforeDeadline + 1000)
           Hrun eq_refl) in Hok.
  - vm_compute in Hok. discriminate.
  - discriminate.
  - apply String.eqb_neq. vm_compute. reflexivity.
Defined.
